(** * ICARTT reader: a shallow embedding of [icartt_reader.py]

    The development follows the Python module method by method.  Text is a
    list of Unicode code points, the way a Python [str] is; the built-in
    string methods the reader calls ([strip], [split], [replace], [isdigit],
    [int], [str], slicing) are given as executable functions on that type,
    with the character classes of CPython 3.11 (Unicode 14).

    The table itself is read and written by pandas: [read_table] is given
    over an arbitrary [read_csv], and the two export methods, which only
    hand the table to pandas' writers, are not part of the development.

    Two things are left to the environment and taken as given:
    - the file named by the reader's path exists and is readable, and its
      decoded text (UTF-8, undecodable bytes ignored) is the [File] argument
      of every method;
    - [int] is given without the interpreter's limit on the number of
      digits it converts ([int_max_str_digits], 4300 by default); where a
      statement needs [int] to accept a string, it asks for the string to
      be within that limit. *)

From Stdlib Require Import Strings.Ascii Strings.String.
From Stdlib Require Import ZArith NArith List Bool Lia PrimFloat.
From Stdlib Require Import Numbers.DecimalPos.
Import ListNotations.

Local Open Scope Z_scope.

(** ** Characters and text *)

Definition char := N.
Definition str := list char.

(** A literal of the source, read one code point per character. *)
Definition lit (s : string) : str := map N_of_ascii (list_ascii_of_string s).

Definition char_eqb (a b : char) : bool := N.eqb a b.

Fixpoint str_eqb (a b : str) : bool :=
  match a, b with
  | [], [] => true
  | x :: a', y :: b' => char_eqb x y && str_eqb a' b'
  | _, _ => false
  end.

Definition LF : char := 10%N.
Definition CR : char := 13%N.
Definition COMMA : char := 44%N.
Definition SPACE : char := 32%N.
Definition PLUS : char := 43%N.
Definition MINUS : char := 45%N.
Definition UNDERSCORE : char := 95%N.

(** *** Character classes *)

Definition in_range (c : char) (r : N * N) : bool :=
  (fst r <=? c)%N && (c <=? snd r)%N.

Definition in_ranges (tbl : list (N * N)) (c : char) : bool :=
  existsb (in_range c) tbl.

(** [str.isspace] on one character: the set [str.strip()] and [str.split()]
    treat as whitespace. *)
Definition space_ranges : list (N * N) :=
  [ (9, 13); (28, 32); (133, 133); (160, 160); (5760, 5760); (8192, 8202);
    (8232, 8233); (8239, 8239); (8287, 8287); (12288, 12288) ]%N.

Definition isspace (c : char) : bool := in_ranges space_ranges c.

(** Decimal digits (category Nd).  Every block starts at a digit zero and
    runs through whole decades, so the value of a digit is its offset in
    the block modulo ten. *)
Definition decimal_ranges : list (N * N) :=
  [ (48, 57); (1632, 1641); (1776, 1785); (1984, 1993); (2406, 2415); (2534, 2543);
    (2662, 2671); (2790, 2799); (2918, 2927); (3046, 3055); (3174, 3183); (3302, 3311);
    (3430, 3439); (3558, 3567); (3664, 3673); (3792, 3801); (3872, 3881); (4160, 4169);
    (4240, 4249); (6112, 6121); (6160, 6169); (6470, 6479); (6608, 6617); (6784, 6793);
    (6800, 6809); (6992, 7001); (7088, 7097); (7232, 7241); (7248, 7257); (42528, 42537);
    (43216, 43225); (43264, 43273); (43472, 43481); (43504, 43513); (43600, 43609); (44016, 44025);
    (65296, 65305); (66720, 66729); (68912, 68921); (69734, 69743); (69872, 69881); (69942, 69951);
    (70096, 70105); (70384, 70393); (70736, 70745); (70864, 70873); (71248, 71257); (71360, 71369);
    (71472, 71481); (71904, 71913); (72016, 72025); (72784, 72793); (73040, 73049); (73120, 73129);
    (92768, 92777); (92864, 92873); (93008, 93017); (120782, 120831); (123200, 123209); (123632, 123641);
    (125264, 125273); (130032, 130041) ]%N.

(** Characters that are digits for [str.isdigit] without being decimal:
    superscripts, subscripts, circled and parenthesised digits and the like. *)
Definition digit_only_ranges : list (N * N) :=
  [ (178, 179); (185, 185); (4969, 4977); (6618, 6618); (8304, 8304); (8308, 8313);
    (8320, 8329); (9312, 9320); (9332, 9340); (9352, 9360); (9450, 9450); (9461, 9469);
    (9471, 9471); (10102, 10110); (10112, 10120); (10122, 10130); (68160, 68163); (69216, 69224);
    (69714, 69722); (127232, 127242) ]%N.

Definition isdecimal_char (c : char) : bool := in_ranges decimal_ranges c.

Definition isdigit_char (c : char) : bool :=
  isdecimal_char c || in_ranges digit_only_ranges c.

Definition decimal_value (c : char) : option Z :=
  match find (in_range c) decimal_ranges with
  | Some r => Some (Z.of_N ((c - fst r) mod 10))
  | None => None
  end.

(** ** Built-in string methods *)

(** [s.lstrip(...)] and [s.rstrip(...)] for a class [p] of characters. *)
Fixpoint lstrip_by (p : char -> bool) (s : str) : str :=
  match s with
  | [] => []
  | c :: s' => if p c then lstrip_by p s' else s
  end.

Fixpoint rstrip_by (p : char -> bool) (s : str) : str :=
  match s with
  | [] => []
  | c :: s' =>
      match rstrip_by p s' with
      | [] => if p c then [] else [c]
      | r => c :: r
      end
  end.

(** [s.strip()] *)
Definition str_strip (s : str) : str := rstrip_by isspace (lstrip_by isspace s).

(** [s.rstrip("\n")] *)
Definition rstrip_newline (s : str) : str := rstrip_by (char_eqb LF) s.

(** [s.split(sep)] for a separator of one character: never empty. *)
Fixpoint split_on (sep : char) (s : str) : list str :=
  match s with
  | [] => [[]]
  | c :: s' =>
      if char_eqb c sep then [] :: split_on sep s'
      else match split_on sep s' with
           | [] => [[c]]
           | piece :: rest => (c :: piece) :: rest
           end
  end.

(** [s.split()]: the maximal runs of non-whitespace characters. *)
Fixpoint split_ws_from (tok : str) (s : str) : list str :=
  match s with
  | [] => match tok with [] => [] | _ => [rev tok] end
  | c :: s' =>
      if isspace c
      then match tok with
           | [] => split_ws_from [] s'
           | _ => rev tok :: split_ws_from [] s'
           end
      else split_ws_from (c :: tok) s'
  end.

Definition split_ws (s : str) : list str := split_ws_from [] s.

(** [s.replace(a, b)] for one-character [a] and [b]. *)
Definition replace_char (a b : char) (s : str) : str :=
  map (fun c => if char_eqb c a then b else c) s.

(** [sep.join(parts)] *)
Fixpoint str_join (sep : str) (parts : list str) : str :=
  match parts with
  | [] => []
  | [p] => p
  | p :: rest => p ++ sep ++ str_join sep rest
  end.

(** [s.startswith((a, b))] for one-character prefixes. *)
Definition startswith_any (prefixes : list char) (s : str) : bool :=
  match s with
  | [] => false
  | c :: _ => existsb (char_eqb c) prefixes
  end.

(** [s.isdigit()]: at least one character, all of them digits. *)
Definition str_isdigit (s : str) : bool :=
  match s with
  | [] => false
  | _ => forallb isdigit_char s
  end.

(** [l[start:stop]] with Python's treatment of negative and out-of-range
    bounds: a negative bound counts from the end, and both are clamped to
    [0 .. len(l)]. *)
Definition slice_bound (len i : Z) : Z :=
  if i <? 0 then Z.max (len + i) 0 else Z.min i len.

Definition py_slice {A : Type} (l : list A) (start stop : Z) : list A :=
  let len := Z.of_nat (length l) in
  let lo := slice_bound len start in
  let hi := slice_bound len stop in
  firstn (Z.to_nat (hi - lo)) (skipn (Z.to_nat lo) l).

(** [l[start:]] *)
Definition py_slice_from {A : Type} (l : list A) (start : Z) : list A :=
  py_slice l start (Z.of_nat (length l)).

(** [l[:stop]] *)
Definition py_slice_to {A : Type} (l : list A) (stop : Z) : list A :=
  py_slice l 0 stop.

(** *** [int(s)] in base ten

    The interpreter first maps every non-ASCII whitespace character to a
    space and every non-ASCII decimal digit to its ASCII digit; anything
    else outside ASCII is invalid.  It then skips ASCII whitespace on both
    sides and reads an optional sign and groups of digits separated by
    single underscores. *)

Definition int_isspace (c : char) : bool :=
  if (c <? 127)%N
  then ((9 <=? c)%N && (c <=? 13)%N) || (c =? 32)%N
  else isspace c.

Definition int_digit (c : char) : option Z :=
  if (c <? 127)%N
  then if (48 <=? c)%N && (c <=? 57)%N then Some (Z.of_N (c - 48)) else None
  else if isspace c then None else decimal_value c.

Fixpoint scan_digits (after_underscore : bool) (acc : Z) (s : str) : option Z :=
  match s with
  | [] => if after_underscore then None else Some acc
  | c :: s' =>
      if char_eqb c UNDERSCORE
      then if after_underscore then None else scan_digits true acc s'
      else match int_digit c with
           | Some d => scan_digits false (10 * acc + d) s'
           | None => None
           end
  end.

Definition int_body (s : str) : option Z :=
  match s with
  | [] => None
  | c :: _ => if char_eqb c UNDERSCORE then None else scan_digits false 0 s
  end.

Definition py_int (s : str) : option Z :=
  let t := rstrip_by int_isspace (lstrip_by int_isspace s) in
  match t with
  | [] => None
  | c :: body =>
      if char_eqb c PLUS then int_body body
      else if char_eqb c MINUS then option_map Z.opp (int_body body)
      else int_body t
  end.

(** *** [str(n)] for an integer *)

Fixpoint uint_chars (d : Decimal.uint) : str :=
  match d with
  | Decimal.Nil => []
  | Decimal.D0 d' => 48%N :: uint_chars d'
  | Decimal.D1 d' => 49%N :: uint_chars d'
  | Decimal.D2 d' => 50%N :: uint_chars d'
  | Decimal.D3 d' => 51%N :: uint_chars d'
  | Decimal.D4 d' => 52%N :: uint_chars d'
  | Decimal.D5 d' => 53%N :: uint_chars d'
  | Decimal.D6 d' => 54%N :: uint_chars d'
  | Decimal.D7 d' => 55%N :: uint_chars d'
  | Decimal.D8 d' => 56%N :: uint_chars d'
  | Decimal.D9 d' => 57%N :: uint_chars d'
  end.

Definition str_of_int (n : Z) : str :=
  match n with
  | Z0 => [48%N]
  | Zpos p => uint_chars (Pos.to_uint p)
  | Zneg p => MINUS :: uint_chars (Pos.to_uint p)
  end.

(** [abs(n)] *)
Definition py_abs (n : Z) : Z := Z.abs n.

(** A value is falsy when it is the empty string. *)
Definition truthy (s : str) : bool :=
  match s with [] => false | _ => true end.

(** ** Exceptions *)

Inductive exn : Type :=
| ValueError
| ParserError
| EmptyDataError.

Inductive result (A : Type) : Type :=
| Ok (a : A)
| Raise (e : exn).
Arguments Ok {A} a.
Arguments Raise {A} e.

Definition bind {A B : Type} (m : result A) (k : A -> result B) : result B :=
  match m with
  | Ok a => k a
  | Raise e => Raise e
  end.

Notation "x <- m ;; k" := (bind m (fun x => k))
  (at level 61, m at next level, right associativity).

(** [int(s)] as a call that may raise. *)
Definition int_of_str (s : str) : result Z :=
  match py_int s with
  | Some n => Ok n
  | None => Raise ValueError
  end.

(** ** Files and paths *)

(** The decoded text of the file the reader is bound to. *)
Definition File := str.

(** Text mode with the default [newline=None]: a carriage return, alone or
    followed by a line feed, reaches the program as one line feed. *)
Fixpoint universal_newlines (s : str) : str :=
  match s with
  | [] => []
  | c :: s' =>
      if char_eqb c CR
      then LF :: match s' with
                 | d :: s'' =>
                     if char_eqb d LF then universal_newlines s''
                     else universal_newlines s'
                 | [] => []
                 end
      else c :: universal_newlines s'
  end.

(** [open(self.path, "r", encoding="utf-8", errors="ignore")]: the stream
    of characters still to be read. *)
Definition open_text (f : File) : str := universal_newlines f.

(** [f.readline()]: the line with its terminator, and the rest of the
    stream; the empty string at end of file. *)
Fixpoint readline (stream : str) : str * str :=
  match stream with
  | [] => ([], [])
  | c :: rest =>
      if char_eqb c LF then ([LF], rest)
      else let '(line, rest') := readline rest in (c :: line, rest')
  end.

(** A [pathlib.Path].  Only [str(path)] is used here, and it is never the
    empty string (the empty path is written "."). *)
Record Path : Type := mkPath {
  path_str : str;
  path_str_nonempty : truthy path_str = true
}.

(** ** Data classes *)

Module ICARTTInfo.
Record t : Type := mk {
  path : Path;
  header_length : Z;
  ffi : str
}.
End ICARTTInfo.

Module VariableDef.
Record t : Type := mk {
  name : str;
  unit : option str;
  description : option str;
  missing : option float
}.
End VariableDef.

(** ** The reader *)

Record ICARTTReader : Type := mkReader {
  path : Path;
  info : ICARTTInfo.t
}.

Definition _read_info (p : Path) (f : File) : result ICARTTInfo.t :=
  let line1 := str_strip (fst (readline (open_text f))) in
  let parts := map str_strip (split_on COMMA line1) in
  if (length parts <? 2)%nat then Raise ValueError
  else
    header_length <- int_of_str (nth 0 parts []) ;;
    let ffi := nth 1 parts [] in
    Ok (ICARTTInfo.mk p header_length ffi).

Definition __init__ (p : Path) (f : File) : result ICARTTReader :=
  i <- _read_info p f ;;
  Ok (mkReader p i).

(** The loop of [read_header_lines]: [n] iterations left, [stream] the open
    file, [lines] the list built so far. *)
Fixpoint read_header_loop (n : nat) (stream : str) (lines : list str) : list str :=
  match n with
  | O => lines
  | S n' =>
      let '(line, rest) := readline stream in
      if truthy line
      then read_header_loop n' rest (lines ++ [rstrip_newline line])
      else lines
  end.

Definition read_header_lines (self : ICARTTReader) (f : File) : list str :=
  let n := ICARTTInfo.header_length (info self) in
  read_header_loop (Z.to_nat n) (open_text f) [].

(** *** Metadata *)

(** A [Dict[str, str]] in insertion order. *)
Definition dict := list (string * str).

Fixpoint dict_set (k : string) (v : str) (d : dict) : dict :=
  match d with
  | [] => [(k, v)]
  | (k', v') :: d' =>
      if String.eqb k k' then (k, v) :: d' else (k', v') :: dict_set k v d'
  end.

Fixpoint dict_get (k : string) (d : dict) : option str :=
  match d with
  | [] => None
  | (k', v) :: d' => if String.eqb k k' then Some v else dict_get k d'
  end.

(** The local function [safe] of [read_metadata]. *)
Definition safe (lines : list str) (i : Z) : str :=
  if (0 <=? i) && (i <? Z.of_nat (length lines))
  then str_strip (nth (Z.to_nat i) lines [])
  else [].

(** [{k: v for k, v in meta.items() if v}] *)
Definition keep_truthy (meta : dict) : dict :=
  fold_left (fun d kv => if truthy (snd kv) then dict_set (fst kv) (snd kv) d else d)
            meta [].

Definition read_metadata (self : ICARTTReader) (f : File) : dict :=
  let lines := read_header_lines self f in
  let meta := [] in
  let meta := dict_set "path" (path_str (path self)) meta in
  let meta := dict_set "header_length"
                (str_of_int (ICARTTInfo.header_length (info self))) meta in
  let meta := dict_set "ffi" (ICARTTInfo.ffi (info self)) meta in
  let meta := dict_set "pi" (safe lines 1) meta in
  let meta := dict_set "organization" (safe lines 2) meta in
  let meta := dict_set "data_description" (safe lines 3) meta in
  let meta := dict_set "mission" (safe lines 4) meta in
  let meta := dict_set "volume_info" (safe lines 5) meta in
  let meta := dict_set "date_info" (safe lines 6) meta in
  let meta := dict_set "data_interval" (safe lines 7) meta in
  let meta := dict_set "independent_variable" (safe lines 8) meta in
  keep_truthy meta.

(** *** Variable definitions *)

(** [x or None] for an optional string. *)
Definition or_none (x : option str) : option str :=
  match x with
  | Some s => if truthy s then Some s else None
  | None => None
  end.

Definition _guess_per_variable_missing (self : ICARTTReader) : list (str * float) :=
  [].

(** [miss_map.get(key)] *)
Fixpoint miss_get (key : str) (m : list (str * float)) : option float :=
  match m with
  | [] => None
  | (k, v) :: m' => if str_eqb key k then Some v else miss_get key m'
  end.

(** The loop over [block] in [read_variable_defs], [out] the list built so
    far. *)
Fixpoint variable_loop (block : list str) (out : list VariableDef.t)
  : list VariableDef.t :=
  match block with
  | [] => out
  | ln :: block' =>
      let parts := map str_strip (split_on COMMA ln) in
      match parts with
      | [] => variable_loop block' out
      | _ =>
          let name := nth 0 parts [] in
          let unit := if (1 <? length parts)%nat then Some (nth 1 parts []) else None in
          let desc := if (2 <? length parts)%nat
                      then Some (str_strip (str_join [COMMA] (py_slice_from parts 2)))
                      else None in
          variable_loop block'
            (out ++ [VariableDef.mk name (or_none unit) (or_none desc) None])
      end
  end.

Definition read_variable_defs (self : ICARTTReader) (f : File) : list VariableDef.t :=
  let lines := read_header_lines self f in
  if (length lines <? 11)%nat then []
  else
    match int_of_str (str_strip (nth 9 lines [])) with
    | Raise _ => []
    | Ok n_dep =>
        let start := 12 in
        let block := py_slice lines start (start + n_dep) in
        let out := variable_loop block [] in
        let miss_map := _guess_per_variable_missing self in
        match miss_map with
        | [] => out
        | _ =>
            map (fun v => VariableDef.mk (VariableDef.name v) (VariableDef.unit v)
                            (VariableDef.description v)
                            (miss_get (VariableDef.name v) miss_map))
                out
        end
    end.

(** *** Missing values *)

(** The inner loop of [_guess_missing_values] over the tokens of one line. *)
Fixpoint scan_tokens (toks : list str) (candidates : list Z) : result (list Z) :=
  match toks with
  | [] => Ok candidates
  | tok :: toks' =>
      if startswith_any [MINUS; PLUS] tok && str_isdigit (py_slice_from tok 1)
      then
        val <- int_of_str tok ;;
        if 999 <=? py_abs val
        then scan_tokens toks' (candidates ++ [val])
        else scan_tokens toks' candidates
      else scan_tokens toks' candidates
  end.

(** The outer loop over the header lines. *)
Fixpoint scan_lines (lines : list str) (candidates : list Z) : result (list Z) :=
  match lines with
  | [] => Ok candidates
  | ln :: lines' =>
      candidates' <- scan_tokens (split_ws (replace_char COMMA SPACE ln)) candidates ;;
      scan_lines lines' candidates'
  end.

(** [v in seen] for the set [seen]. *)
Definition mem (v : Z) (seen : list Z) : bool := existsb (Z.eqb v) seen.

(** The de-duplication loop, with its set [seen] and list [ordered]. *)
Fixpoint dedup_loop (candidates seen ordered : list Z) : list Z :=
  match candidates with
  | [] => ordered
  | v :: rest =>
      if mem v seen then dedup_loop rest seen ordered
      else dedup_loop rest (v :: seen) (ordered ++ [v])
  end.

Definition default_missing : list Z := [-9999; -99999; -8888; 9999; 99999].

Definition _guess_missing_values (self : ICARTTReader) (f : File) : result (list Z) :=
  let lines := read_header_lines self f in
  candidates <-
    scan_lines (py_slice_to lines (Z.min (Z.of_nat (length lines)) 200)) [] ;;
  let ordered := dedup_loop candidates [] [] in
  match ordered with
  | [] => Ok default_missing
  | _ => Ok ordered
  end.

(** *** The data table

    The table itself is pandas' work; the reader only chooses what it
    passes on.  Pandas is taken as given. *)

Inductive na_value : Type :=
| NaInt (n : Z)
| NaFloat (x : float)
| NaStr (s : str).

(** [max(self.info.header_length - 1, 0)] *)
Definition skiprows_of (self : ICARTTReader) : Z :=
  Z.max (ICARTTInfo.header_length (info self) - 1) 0.

Section Table.
Variable DataFrame : Type.
(** [pd.read_csv(path, skiprows=..., sep=",", engine="python", na_values=...)] *)
Variable pd_read_csv : File -> Z -> list na_value -> result DataFrame.
(** [[str(c) for c in df.columns]] and the assignment to [df.columns]. *)
Variable df_columns : DataFrame -> list str.
Variable df_set_columns : DataFrame -> list str -> DataFrame.

Definition read_table (self : ICARTTReader) (f : File)
    (na_values : option (list na_value)) (strip_colnames : bool)
  : result DataFrame :=
  let skiprows := skiprows_of self in
  na <- match na_values with
        | None => guessed <- _guess_missing_values self f ;; Ok (map NaInt guessed)
        | Some given => Ok given
        end ;;
  df <- pd_read_csv f skiprows na ;;
  if strip_colnames
  then Ok (df_set_columns df (map str_strip (df_columns df)))
  else Ok df.
End Table.

(** ** Reference notions used in the statements *)

(** [f.readlines()]: the lines of a stream, each with its terminator. *)
Fixpoint readlines (stream : str) : list str :=
  match stream with
  | [] => []
  | c :: rest =>
      if char_eqb c LF then [LF] :: readlines rest
      else match readlines rest with
           | [] => [[c]]
           | line :: more => (c :: line) :: more
           end
  end.

(** The lines of the file, as text mode delivers them. *)
Definition file_lines (f : File) : list str := readlines (open_text f).

(** What a line of [readlines] looks like, and what [rstrip("\n")] does to
    it: the line is its stripped form followed by at most one line feed,
    and the stripped form holds no line feed. *)
Inductive terminated : str -> str -> Prop :=
| terminated_lf body : ~ In LF body -> terminated (body ++ [LF]) body
| terminated_eof body : ~ In LF body -> body <> [] -> terminated body body.

(** The entries of a dictionary whose value is not empty. *)
Definition truthy_entry (kv : string * str) : bool := truthy (snd kv).

(** The first line of the file, stripped, split on commas, each piece
    stripped: the tokens [_read_info] looks at. *)
Definition first_line_parts (f : File) : list str :=
  map str_strip (split_on COMMA (str_strip (fst (readline (open_text f))))).

(** The empty string read as an absent value. *)
Definition nonempty (s : str) : option str :=
  match s with
  | [] => None
  | _ => Some s
  end.

(** The entry a block line stands for: the first token is the name, the
    second, when there is one, the unit, and the tokens after it, joined
    again with commas and stripped, the description; an empty unit or
    description is absent. *)
Definition entry_of_line (ln : str) : VariableDef.t :=
  let tokens := map str_strip (split_on COMMA ln) in
  VariableDef.mk
    (hd [] tokens)
    (match tokens with
     | _ :: u :: _ => nonempty u
     | _ => None
     end)
    (match tokens with
     | _ :: _ :: d :: ds => nonempty (str_strip (str_join [COMMA] (d :: ds)))
     | _ => None
     end)
    None.

(** The entries [read_metadata] stores, in the order it stores them, before
    the empty ones are dropped. *)
Definition metadata_entries (self : ICARTTReader) (lines : list str) : dict :=
  [ ("path", path_str (path self));
    ("header_length", str_of_int (ICARTTInfo.header_length (info self)));
    ("ffi", ICARTTInfo.ffi (info self));
    ("pi", safe lines 1);
    ("organization", safe lines 2);
    ("data_description", safe lines 3);
    ("mission", safe lines 4);
    ("volume_info", safe lines 5);
    ("date_info", safe lines 6);
    ("data_interval", safe lines 7);
    ("independent_variable", safe lines 8) ]%string.

(** The header positions of the conventional layout. *)
Definition metadata_positions : list (string * nat) :=
  [ ("pi", 1); ("organization", 2); ("data_description", 3); ("mission", 4);
    ("volume_info", 5); ("date_info", 6); ("data_interval", 7);
    ("independent_variable", 8) ]%string%nat.

(** The stripped header line at a position, absent when the header is too
    short or the stripped line is empty. *)
Definition header_field (lines : list str) (i : nat) : option str :=
  match nth_error lines i with
  | Some ln => nonempty (str_strip ln)
  | None => None
  end.

(** The tokens of a line: the maximal runs of characters that are
    neither whitespace nor commas. *)
Definition is_separator (c : char) : bool := isspace c || char_eqb c COMMA.

Fixpoint tokens_from (tok : str) (s : str) : list str :=
  match s with
  | [] => match tok with [] => [] | _ => [rev tok] end
  | c :: s' =>
      if is_separator c
      then match tok with
           | [] => tokens_from [] s'
           | _ => rev tok :: tokens_from [] s'
           end
      else tokens_from (c :: tok) s'
  end.

Definition tokens (ln : str) : list str := tokens_from [] ln.

(** A sign followed by at least one digit and nothing else. *)
Definition signed_digits (tok : str) : bool :=
  match tok with
  | c :: rest => (char_eqb c PLUS || char_eqb c MINUS) && str_isdigit rest
  | [] => false
  end.

(** The same with decimal digits only. *)
Definition signed_decimal (tok : str) : bool :=
  match tok with
  | c :: rest =>
      (char_eqb c PLUS || char_eqb c MINUS) && truthy rest && forallb isdecimal_char rest
  | [] => false
  end.

(** The candidate a token stands for: the value of a signed run of digits
    when its magnitude is at least 999. *)
Definition candidate (tok : str) : option Z :=
  if signed_digits tok
  then match py_int tok with
       | Some v => if 999 <=? Z.abs v then Some v else None
       | None => None
       end
  else None.

Fixpoint choose {A B : Type} (f : A -> option B) (l : list A) : list B :=
  match l with
  | [] => []
  | x :: l' =>
      match f x with
      | Some y => y :: choose f l'
      | None => choose f l'
      end
  end.

Definition candidates_of (lines : list str) : list Z :=
  flat_map (fun ln => choose candidate (tokens ln)) lines.

(** A list without its repetitions, every value at its first occurrence. *)
Fixpoint dedup_first (l : list Z) : list Z :=
  match l with
  | [] => []
  | x :: xs => x :: filter (fun y => negb (Z.eqb y x)) (dedup_first xs)
  end.

(** The header lines the heuristic looks at. *)
Definition scanned_lines (self : ICARTTReader) (f : File) : list str :=
  firstn 200 (read_header_lines self f).

(** The tokens on which the test of the loop and [int] agree. *)
Definition int_accepts_signed (toks : list str) : Prop :=
  forall tok, In tok toks -> signed_digits tok = true -> signed_decimal tok = true.

(** The same as a test on the lines of a header: every token that is a
    sign followed by digits has decimal digits only. *)
Definition decimal_signs (lines : list str) : bool :=
  forallb (fun ln =>
             forallb (fun tok => implb (signed_digits tok) (signed_decimal tok))
                     (tokens ln))
          lines.

(** Checks on the tables of character classes. *)
Definition ranges_disjoint (t1 t2 : list (N * N)) : bool :=
  forallb (fun r1 => forallb (fun r2 => (snd r1 <? fst r2)%N || (snd r2 <? fst r1)%N) t2) t1.

Definition ranges_from (lo : N) (t : list (N * N)) : bool :=
  forallb (fun r => (lo <=? fst r)%N) t.

(** ** Sample inputs *)

(** A file given line by line, each line ended by a line feed. *)
Definition unlines (ls : list string) : File :=
  concat (map (fun l => lit l ++ [LF]) ls).

Definition sample_path : Path := mkPath (lit "flight.ict") eq_refl.

(** A reader whose cached header length is [n], as [__init__] builds it. *)
Definition reader_with (n : Z) (ffi : str) : ICARTTReader :=
  mkReader sample_path (ICARTTInfo.mk sample_path n ffi).

(** A file in the conventional layout, with the given first line and the
    given lines at index 9 (the count of variables) and index 11 (the
    missing-value indicators): fifteen header lines, then two data rows. *)
Definition layout_file (first count missing : string) : File :=
  unlines [ first; "Doe, Jane"; "NASA Langley"; "Sample data"; "DISCOVER-AQ";
            "1, 1"; "2014, 08, 02, 2014, 08, 03"; "1"; "Start_UTC, seconds";
            count; "1, 1"; missing;
            "TEMP, degC, Ambient temperature"; "PRES, hPa, ";
            "Start_UTC,TEMP,PRES"; "0,21.5,1013.2"; "1,-9999,1012.9" ]%string.

Definition zero_header_file : File := unlines ["0,1001"; "time,temp"; "0,1"]%string.

Definition negative_header_file : File := unlines ["-5,1001"; "time,temp"]%string.

(** A stand-in for pandas that records the arguments it was called with. *)
Definition recording_read_csv (f : File) (skiprows : Z) (na : list na_value)
  : result (Z * list na_value) := Ok (skiprows, na).

(** A header of three lines whose second holds the token "-3" written with
    a superscript three (U+00B3). *)
Definition superscript_file : File :=
  lit "3,1001" ++ [LF] ++ lit "number density, cm" ++ [SPACE; MINUS; 179%N; LF]
  ++ lit "time,n" ++ [LF] ++ lit "0,12" ++ [LF].

(** ** Further notions *)

(** A string with no whitespace at either end. *)
Definition is_stripped (s : str) : bool :=
  match s with
  | [] => true
  | c :: _ => negb (isspace c) && negb (isspace (last s c))
  end.

(** The same text with every line feed written as carriage return and line
    feed. *)
Definition to_crlf (s : str) : str :=
  flat_map (fun c => if char_eqb c LF then [CR; LF] else [c]) s.

(** A token that passes the test of [_guess_missing_values] and that [int]
    does not accept. *)
Definition rejected (tok : str) : bool :=
  signed_digits tok && match py_int tok with Some _ => false | None => true end.

Definition rejected_line (ln : str) : bool := existsb rejected (tokens ln).

(** One line of the variable block as a producer writes it: name, unit and
    description separated by a comma and a space. *)
Definition variable_line (name unit description : str) : str :=
  name ++ [COMMA; SPACE] ++ unit ++ [COMMA; SPACE] ++ description.

(** ** Exports

    The two export methods read the table, settle the destination and hand
    both to pandas.  Pandas' writers and the two [pathlib] operations are
    taken as given. *)

(** A [PathLike]: a string or a path. *)
Definition PathLike : Type := (str + Path)%type.

(** The truth value of the argument [out]: [None] and the empty string are
    false, any path is true. *)
Definition out_given (out : option PathLike) : bool :=
  match out with
  | None => false
  | Some (inl s) => truthy s
  | Some (inr _) => true
  end.

Section Exports.
Variable DataFrame : Type.
Variable pd_read_csv : File -> Z -> list na_value -> result DataFrame.
Variable df_columns : DataFrame -> list str.
Variable df_set_columns : DataFrame -> list str -> DataFrame.
(** [Path(s)] for a string [s]. *)
Variable path_of_str : str -> Path.
(** [path.with_suffix(suffix)], which raises on a path without a name. *)
Variable with_suffix : Path -> str -> result Path.
(** [df.to_csv(out_path, index=False)] and [df.to_parquet(out_path, index=False)]. *)
Variable df_to_csv : DataFrame -> Path -> result unit.
Variable df_to_parquet : DataFrame -> Path -> result unit.

(** [Path(out) if out else self.path.with_suffix(suffix)] *)
Definition out_path_of (self : ICARTTReader) (out : option PathLike) (suffix : str)
  : result Path :=
  if out_given out
  then match out with
       | Some (inl s) => Ok (path_of_str s)
       | Some (inr p) => Ok p
       | None => with_suffix (path self) suffix
       end
  else with_suffix (path self) suffix.

Definition to_csv (self : ICARTTReader) (f : File) (out : option PathLike)
    (na_values : option (list na_value)) (strip_colnames : bool) : result Path :=
  df <- read_table DataFrame pd_read_csv df_columns df_set_columns
          self f na_values strip_colnames ;;
  out_path <- out_path_of self out (lit ".csv") ;;
  _ <- df_to_csv df out_path ;;
  Ok out_path.

Definition to_parquet (self : ICARTTReader) (f : File) (out : option PathLike)
    (na_values : option (list na_value)) (strip_colnames : bool) : result Path :=
  df <- read_table DataFrame pd_read_csv df_columns df_set_columns
          self f na_values strip_colnames ;;
  out_path <- out_path_of self out (lit ".parquet") ;;
  _ <- df_to_parquet df out_path ;;
  Ok out_path.
End Exports.

(** ** The interpreter's limit on digits

    At its default setting the interpreter refuses to convert a string of
    more than 4300 digits: [int] raises [ValueError] whatever the string
    is otherwise.  Signs, whitespace and underscores do not count; leading
    zeros and non-ASCII decimal digits do.  [py_int] is [int] with the
    limit off, and the two agree on every string within the limit. *)
Definition int_max_str_digits : nat := 4300.

Definition digit_count (s : str) : nat :=
  length (filter (fun c => match int_digit c with Some _ => true | None => false end) s).

Definition within_digit_limit (s : str) : bool :=
  (digit_count s <=? int_max_str_digits)%nat.

(** [int(s)] at the default setting. *)
Definition py_int_default (s : str) : option Z :=
  if within_digit_limit s then py_int s else None.

(** Every token of the lines that is a sign followed by digits is within
    the limit. *)
Definition digits_within_limit (lines : list str) : bool :=
  forallb (fun ln =>
             forallb (fun tok => implb (signed_digits tok) (within_digit_limit tok))
                     (tokens ln))
          lines.
(** * Properties *)

(** ** Built-in methods on sample inputs *)

Example py_int_examples :
  py_int (lit "13") = Some 13 /\ py_int (lit "-9999") = Some (-9999) /\
  py_int (lit " 1_0 ") = Some 10 /\ py_int (lit "1__0") = None /\
  py_int (lit "+") = None /\ py_int (lit "007") = Some 7 /\
  py_int [MINUS; 178%N] = None /\ py_int [1633%N; 1634%N] = Some 12 /\
  py_int [28%N; 49%N] = None /\ py_int [49%N; 50%N; 133%N] = Some 12.
Proof. vm_compute. repeat split. Qed.

(** ** Reading lines *)

Lemma char_eqb_eq (a b : char) : char_eqb a b = true <-> a = b.
Proof. apply N.eqb_eq. Qed.

Lemma char_eqb_neq (a b : char) : char_eqb a b = false <-> a <> b.
Proof. apply N.eqb_neq. Qed.

Lemma truthy_false (s : str) : truthy s = false <-> s = [].
Proof. destruct s; simpl; split; intro H; congruence. Qed.

Lemma truthy_true (s : str) : truthy s = true <-> s <> [].
Proof. destruct s; simpl; split; intro H; congruence. Qed.

Lemma readline_cons_truthy (c : char) (rest : str) :
  truthy (fst (readline (c :: rest))) = true.
Proof.
  simpl. destruct (char_eqb c LF); [reflexivity|].
  destruct (readline rest); reflexivity.
Qed.

Lemma readlines_readline (c : char) (rest : str) :
  readlines (c :: rest) =
  fst (readline (c :: rest)) :: readlines (snd (readline (c :: rest))).
Proof.
  revert c. induction rest as [|d rest IH]; intro c.
  - simpl. destruct (char_eqb c LF); reflexivity.
  - specialize (IH d).
    change (readlines (c :: d :: rest))
      with (if char_eqb c LF then [LF] :: readlines (d :: rest)
            else match readlines (d :: rest) with
                 | [] => [[c]]
                 | line :: more => (c :: line) :: more
                 end).
    change (readline (c :: d :: rest))
      with (if char_eqb c LF then ([LF], d :: rest)
            else let '(line, rest') := readline (d :: rest) in (c :: line, rest')).
    destruct (char_eqb c LF); [reflexivity|].
    rewrite IH. destruct (readline (d :: rest)) as [line rest']. reflexivity.
Qed.

Lemma read_header_loop_spec (n : nat) :
  forall stream acc,
    read_header_loop n stream acc =
    acc ++ map rstrip_newline (firstn n (readlines stream)).
Proof.
  induction n as [|n IH]; intros stream acc.
  - simpl. now rewrite app_nil_r.
  - destruct stream as [|c rest].
    + simpl. now rewrite app_nil_r.
    + rewrite readlines_readline.
      pose proof (readline_cons_truthy c rest) as Ht.
      cbn [read_header_loop].
      destruct (readline (c :: rest)) as [line rest'] eqn:E.
      cbn [fst snd] in *. rewrite Ht, IH.
      cbn [firstn map]. now rewrite <- app_assoc.
Qed.

Lemma read_header_lines_spec (self : ICARTTReader) (f : File) :
  read_header_lines self f =
  map rstrip_newline
      (firstn (Z.to_nat (ICARTTInfo.header_length (info self))) (file_lines f)).
Proof. unfold read_header_lines. now rewrite read_header_loop_spec. Qed.

Lemma rstrip_by_snoc (p : char -> bool) (s : str) (c : char) :
  rstrip_by p (s ++ [c]) = if p c then rstrip_by p s else s ++ [c].
Proof.
  induction s as [|a s IH].
  - simpl. destruct (p c); reflexivity.
  - cbn [app rstrip_by]. rewrite IH. destruct (p c); [reflexivity|].
    destruct s; reflexivity.
Qed.

Lemma rstrip_by_none (p : char -> bool) (s : str) :
  (forall c, In c s -> p c = false) -> rstrip_by p s = s.
Proof.
  induction s as [|a s IH]; intro H; [reflexivity|].
  cbn [rstrip_by]. rewrite IH by (intros c Hc; apply H; now right).
  destruct s; [|reflexivity]. rewrite (H a) by now left. reflexivity.
Qed.

Lemma not_lf_char (body : str) :
  ~ In LF body -> forall c, In c body -> char_eqb LF c = false.
Proof.
  intros H c Hc. apply char_eqb_neq. intro E. apply H. now rewrite E.
Qed.

Lemma rstrip_newline_no_lf (body : str) :
  ~ In LF body -> rstrip_newline body = body.
Proof. intro H. apply rstrip_by_none, not_lf_char, H. Qed.

Lemma rstrip_newline_lf (body : str) :
  ~ In LF body -> rstrip_newline (body ++ [LF]) = body.
Proof.
  intro H. unfold rstrip_newline. rewrite rstrip_by_snoc.
  change (char_eqb LF LF) with true. cbv iota.
  apply rstrip_by_none, not_lf_char, H.
Qed.

Lemma terminated_rstrip (line body : str) :
  terminated line body -> rstrip_newline line = body.
Proof.
  intros [b H|b H _]; [now apply rstrip_newline_lf | now apply rstrip_newline_no_lf].
Qed.

Lemma readlines_terminated (stream : str) :
  Forall (fun line => terminated line (rstrip_newline line)) (readlines stream).
Proof.
  assert (G : Forall (fun line => exists body, terminated line body) (readlines stream)).
  { induction stream as [|c rest IH]; [constructor|].
    simpl. destruct (char_eqb c LF) eqn:E.
    - constructor; [|exact IH]. exists []. apply (terminated_lf []). intros [].
    - apply char_eqb_neq in E.
      destruct (readlines rest) as [|line more].
      + constructor; [|constructor]. exists [c]. apply terminated_eof.
        * intros [H|[]]. congruence.
        * discriminate.
      + inversion IH as [|? ? [body Hb] Hmore]; subst. constructor; [|exact Hmore].
        exists (c :: body). inversion Hb; subst.
        * apply (terminated_lf (c :: body)). intros [H'|H']; [congruence | contradiction].
        * apply terminated_eof; [|discriminate].
          intros [H'|H']; [congruence | contradiction]. }
  eapply Forall_impl; [|exact G].
  intros line [body Hb]. now rewrite (terminated_rstrip _ _ Hb).
Qed.

(** C3. For a reader with header length [N >= 1] and a file of [M] lines,
    [read_header_lines] returns [min N M] lines; the i-th is the i-th line
    of the file without its line terminator and otherwise unchanged.  The
    method is a total function: a header length beyond the end of the file
    gives the shorter list, never an error. *)
Theorem read_header_lines_min (self : ICARTTReader) (f : File) :
  let N := ICARTTInfo.header_length (info self) in
  let M := Z.of_nat (length (file_lines f)) in
  let got := read_header_lines self f in
  1 <= N ->
  Z.of_nat (length got) = Z.min N M /\
  forall i, (i < length got)%nat ->
    exists line,
      nth_error (file_lines f) i = Some line /\
      nth_error got i = Some (rstrip_newline line) /\
      terminated line (rstrip_newline line).
Proof.
  cbv zeta. intro HN. rewrite read_header_lines_spec.
  rewrite length_map, length_firstn. split; [lia|].
  intros i Hi.
  assert (Hlt : (i < length (file_lines f))%nat) by lia.
  destruct (nth_error (file_lines f) i) as [line|] eqn:E.
  - exists line. split; [reflexivity|]. split.
    + rewrite nth_error_map, nth_error_firstn.
      destruct (Nat.ltb_spec i (Z.to_nat (ICARTTInfo.header_length (info self))));
        [now rewrite E | lia].
    + pose proof (readlines_terminated (open_text f)) as HF.
      rewrite Forall_forall in HF. apply HF.
      eapply nth_error_In. exact E.
  - apply nth_error_None in E. lia.
Qed.

Lemma read_header_lines_min_witness :
  Z.of_nat (length (read_header_lines (reader_with 15 (lit "1001")) zero_header_file))
  = Z.min 15 (Z.of_nat (length (file_lines zero_header_file))).
Proof.
  apply (read_header_lines_min (reader_with 15 (lit "1001")) zero_header_file).
  vm_compute. discriminate.
Defined.

(** A header length beyond the end of the file: the three lines there are. *)
Example read_header_lines_short :
  read_header_lines (reader_with 15 (lit "1001")) zero_header_file =
  [lit "0,1001"; lit "time,temp"; lit "0,1"].
Proof. vm_compute. reflexivity. Qed.

(** Carriage returns are line terminators; the last line needs none. *)
Example read_header_lines_crlf :
  read_header_lines (reader_with 2 (lit "1001"))
    (lit "2,1001" ++ [CR; LF] ++ lit "a,b" ++ [CR] ++ lit "1,2") =
  [lit "2,1001"; lit "a,b"].
Proof. vm_compute. reflexivity. Qed.

(** ** Construction *)

Lemma read_info_unfold (p : Path) (f : File) :
  _read_info p f =
  if (length (first_line_parts f) <? 2)%nat then Raise ValueError
  else match py_int (nth 0 (first_line_parts f) []) with
       | Some n => Ok (ICARTTInfo.mk p n (nth 1 (first_line_parts f) []))
       | None => Raise ValueError
       end.
Proof.
  unfold _read_info, first_line_parts, int_of_str, bind.
  destruct (_ <? 2)%nat; [reflexivity|].
  destruct (py_int _); reflexivity.
Qed.

Lemma init_unfold (p : Path) (f : File) :
  __init__ p f =
  match _read_info p f with
  | Ok i => Ok (mkReader p i)
  | Raise e => Raise e
  end.
Proof. reflexivity. Qed.

(** Construction succeeds on any first line of two or more tokens whose
    first token [int] accepts, whatever the sign of the value. *)
Lemma init_accepts (p : Path) (f : File) (n : Z) :
  (2 <= length (first_line_parts f))%nat ->
  py_int (nth 0 (first_line_parts f) []) = Some n ->
  __init__ p f =
  Ok (mkReader p (ICARTTInfo.mk p n (nth 1 (first_line_parts f) []))).
Proof.
  intros Hlen Hint. rewrite init_unfold, read_info_unfold, Hint.
  destruct (Nat.ltb_spec (length (first_line_parts f)) 2); [lia | reflexivity].
Qed.

(** C1, as the code has it.  No lower bound is placed on the header length:
    whenever the first line has two or more tokens and the first parses as
    an integer [n], below 1 or not, construction succeeds and the cached
    [header_length] is [n]; and a reader that was constructed always holds
    the value of that first token. *)
Theorem init_header_length (p : Path) (f : File) (n : Z) :
  (2 <= length (first_line_parts f))%nat ->
  py_int (nth 0 (first_line_parts f) []) = Some n ->
  (exists self, __init__ p f = Ok self) /\
  (forall self, __init__ p f = Ok self ->
                ICARTTInfo.header_length (info self) = n).
Proof.
  intros Hlen Hint. rewrite (init_accepts p f n Hlen Hint). split.
  - eexists. reflexivity.
  - intros self E. inversion E. reflexivity.
Qed.

Lemma init_header_length_witness :
  (exists self, __init__ sample_path zero_header_file = Ok self) /\
  (forall self, __init__ sample_path zero_header_file = Ok self ->
                ICARTTInfo.header_length (info self) = 0).
Proof.
  apply (init_header_length sample_path zero_header_file 0).
  - vm_compute. repeat constructor.
  - vm_compute. reflexivity.
Defined.

(** C1 as stated fails: a first line whose first token is 0 yields a reader,
    with a cached header length below 1. *)
Lemma init_accepts_zero :
  __init__ sample_path zero_header_file = Ok (reader_with 0 (lit "1001")) /\
  ICARTTInfo.header_length (info (reader_with 0 (lit "1001"))) = 0.
Proof. split; vm_compute; reflexivity. Qed.

(** C2, as the code has it.  [_read_info] raises exactly when the first line
    has fewer than two tokens or [int] rejects the first one; a negative
    integer is accepted like any other.  On success the result carries the
    value of the first token and the second token. *)
Theorem read_info_raises_iff (p : Path) (f : File) :
  let parts := first_line_parts f in
  ((exists e, _read_info p f = Raise e) <->
   (length parts < 2)%nat \/ py_int (nth 0 parts []) = None) /\
  (forall i, _read_info p f = Ok i <->
             (2 <= length parts)%nat /\
             py_int (nth 0 parts []) = Some (ICARTTInfo.header_length i) /\
             ICARTTInfo.ffi i = nth 1 parts [] /\
             ICARTTInfo.path i = p).
Proof.
  cbv zeta. rewrite read_info_unfold.
  destruct (Nat.ltb_spec (length (first_line_parts f)) 2) as [Hlt|Hge].
  - split.
    + split; [intros _; now left | intros _; now exists ValueError].
    + intro i. split; [discriminate | intros [H _]; lia].
  - destruct (py_int (nth 0 (first_line_parts f) [])) as [n|] eqn:E.
    + split.
      * split; [intros [e He]; discriminate | intros [H|H]; [lia | discriminate]].
      * intro i. split.
        -- intro H. inversion H. subst i. cbn. repeat split; [exact Hge].
        -- intros (_ & Hn & Hf & Hp). destruct i as [ip ih iffi]. cbn in *.
           congruence.
    + split.
      * split; [intros _; now right | intros _; now exists ValueError].
      * intro i. split; [discriminate | intros (_ & H & _); discriminate].
Qed.

(** C2 as stated fails: the first token "-5" is no non-negative integer, and
    yet no error is raised; the header length is -5. *)
Lemma read_info_accepts_negative :
  first_line_parts negative_header_file = [lit "-5"; lit "1001"] /\
  _read_info sample_path negative_header_file =
  Ok (ICARTTInfo.mk sample_path (-5) (lit "1001")).
Proof. split; vm_compute; reflexivity. Qed.

(** ** A header length of zero or less *)

Lemma read_header_lines_nonpositive (self : ICARTTReader) (f : File) :
  ICARTTInfo.header_length (info self) <= 0 -> read_header_lines self f = [].
Proof.
  intro H. unfold read_header_lines.
  replace (Z.to_nat (ICARTTInfo.header_length (info self))) with O by lia.
  reflexivity.
Qed.

(** C9. A reader whose header length is zero or negative reads no header
    line, and [read_table] skips no line: pandas is called with
    [skiprows = 0] (and, no header being scanned, with the default
    missing-value tokens). *)
Theorem nonpositive_header_length
    (DataFrame : Type) (pd_read_csv : File -> Z -> list na_value -> result DataFrame)
    (df_columns : DataFrame -> list str)
    (df_set_columns : DataFrame -> list str -> DataFrame)
    (self : ICARTTReader) (f : File) (strip_colnames : bool) :
  ICARTTInfo.header_length (info self) <= 0 ->
  read_header_lines self f = [] /\
  skiprows_of self = 0 /\
  read_table DataFrame pd_read_csv df_columns df_set_columns self f None strip_colnames =
  (df <- pd_read_csv f 0 (map NaInt default_missing) ;;
   if strip_colnames
   then Ok (df_set_columns df (map str_strip (df_columns df)))
   else Ok df).
Proof.
  intro H. pose proof (read_header_lines_nonpositive self f H) as Hl.
  assert (Hs : skiprows_of self = 0) by (unfold skiprows_of; lia).
  repeat split; [exact Hl | exact Hs |].
  unfold read_table, _guess_missing_values. rewrite Hl, Hs. reflexivity.
Qed.

Lemma nonpositive_header_length_witness :
  __init__ sample_path zero_header_file = Ok (reader_with 0 (lit "1001")) /\
  read_header_lines (reader_with 0 (lit "1001")) zero_header_file = [] /\
  skiprows_of (reader_with 0 (lit "1001")) = 0 /\
  read_table _ recording_read_csv (fun _ => []) (fun df _ => df)
             (reader_with 0 (lit "1001")) zero_header_file None false =
  Ok (0, map NaInt default_missing).
Proof.
  split; [vm_compute; reflexivity|].
  apply (nonpositive_header_length _ recording_read_csv (fun _ => []) (fun df _ => df)
           (reader_with 0 (lit "1001")) zero_header_file false).
  vm_compute. discriminate.
Defined.

(** ** Slices *)

Lemma py_slice_nonneg {A : Type} (l : list A) (a b : Z) :
  0 <= a -> 0 <= b ->
  py_slice l a b = firstn (Z.to_nat (b - a)) (skipn (Z.to_nat a) l).
Proof.
  intros Ha Hb. unfold py_slice, slice_bound.
  destruct (Z.ltb_spec a 0); [lia|]. destruct (Z.ltb_spec b 0); [lia|].
  destruct (Z_lt_le_dec a (Z.of_nat (length l))) as [Hlt|Hge].
  - rewrite (Z.min_l a) by lia.
    destruct (Z_le_gt_dec b (Z.of_nat (length l))) as [Hb'|Hb'].
    + now rewrite (Z.min_l b) by lia.
    + rewrite (Z.min_r b) by lia.
      rewrite !firstn_all2; [reflexivity | |]; rewrite length_skipn; lia.
  - rewrite !(skipn_all2 (n := Z.to_nat _)); [now rewrite !firstn_nil | lia | lia].
Qed.

Lemma py_slice_from_nat {A : Type} (l : list A) (k : nat) :
  py_slice_from l (Z.of_nat k) = skipn k l.
Proof.
  unfold py_slice_from. rewrite py_slice_nonneg by lia.
  rewrite Nat2Z.id. apply firstn_all2. rewrite length_skipn. lia.
Qed.

Lemma py_slice_to_nat {A : Type} (l : list A) (k : nat) :
  py_slice_to l (Z.of_nat k) = firstn k l.
Proof.
  unfold py_slice_to. rewrite py_slice_nonneg by lia.
  rewrite Z.sub_0_r, Nat2Z.id. reflexivity.
Qed.

(** A negative stop counts from the end of the list. *)
Lemma py_slice_negative_stop {A : Type} (l : list A) (a b : Z) :
  0 <= a <= Z.of_nat (length l) -> b < 0 ->
  py_slice l a b =
  firstn (Z.to_nat (Z.of_nat (length l) + b - a)) (skipn (Z.to_nat a) l).
Proof.
  intros Ha Hb. unfold py_slice, slice_bound.
  destruct (Z.ltb_spec a 0); [lia|]. destruct (Z.ltb_spec b 0); [|lia].
  rewrite (Z.min_l a) by lia. f_equal. lia.
Qed.

(** ** Variable definitions *)

Lemma split_on_nonempty (sep : char) (s : str) : split_on sep s <> [].
Proof.
  destruct s as [|c s]; simpl; [discriminate|].
  destruct (char_eqb c sep); [discriminate|].
  destruct (split_on sep s); discriminate.
Qed.

Lemma or_none_nonempty (x : str) : or_none (Some x) = nonempty x.
Proof. destruct x; reflexivity. Qed.

Lemma variable_loop_spec (block : list str) :
  forall out, variable_loop block out = out ++ map entry_of_line block.
Proof.
  induction block as [|ln block IH]; intro out.
  - simpl. now rewrite app_nil_r.
  - cbn [variable_loop map]. unfold entry_of_line.
    pose proof (split_on_nonempty COMMA ln) as Hne.
    destruct (split_on COMMA ln) as [|a rest]; [contradiction|].
    cbn [map]. rewrite IH, <- app_assoc. cbn [app]. do 2 f_equal.
    destruct rest as [|b [|c rest]];
      cbn [map length Nat.ltb Nat.leb nth hd];
      rewrite ?or_none_nonempty; change (or_none None) with (@None str);
      [reflexivity | reflexivity |].
    match goal with
    | |- context [py_slice_from ?l 2] =>
        change (py_slice_from l 2) with (py_slice_from l (Z.of_nat 2));
        rewrite (py_slice_from_nat l 2)
    end.
    reflexivity.
Qed.

Lemma read_variable_defs_unfold (self : ICARTTReader) (f : File) :
  read_variable_defs self f =
  let lines := read_header_lines self f in
  if (length lines <? 11)%nat then []
  else match py_int (str_strip (nth 9 lines [])) with
       | Some n_dep => map entry_of_line (py_slice lines 12 (12 + n_dep))
       | None => []
       end.
Proof.
  unfold read_variable_defs, int_of_str, _guess_per_variable_missing. cbv zeta.
  destruct (_ <? 11)%nat; [reflexivity|].
  destruct (py_int _); [|reflexivity].
  now rewrite variable_loop_spec.
Qed.

(** C5. With fewer than eleven header lines, or with a line at index 9
    that [int] rejects once stripped, [read_variable_defs] returns the
    empty list. *)
Theorem read_variable_defs_empty (self : ICARTTReader) (f : File) :
  (length (read_header_lines self f) < 11)%nat \/
  py_int (str_strip (nth 9 (read_header_lines self f) [])) = None ->
  read_variable_defs self f = [].
Proof.
  intro H. rewrite read_variable_defs_unfold. cbv zeta.
  destruct (Nat.ltb_spec (length (read_header_lines self f)) 11) as [Hlt|Hge];
    [reflexivity|].
  destruct H as [H|H]; [lia|]. now rewrite H.
Qed.

(** C4. When the header has at least eleven lines, the line at index 9
    parses as [count >= 1] and the header reaches index [12 + count - 1],
    [read_variable_defs] returns [count] entries, the i-th being the entry
    of the header line at index [12 + i]. *)
Theorem read_variable_defs_layout (self : ICARTTReader) (f : File) (count : Z) :
  let lines := read_header_lines self f in
  (11 <= length lines)%nat ->
  py_int (str_strip (nth 9 lines [])) = Some count ->
  1 <= count ->
  12 + count <= Z.of_nat (length lines) ->
  length (read_variable_defs self f) = Z.to_nat count /\
  forall i, (i < Z.to_nat count)%nat ->
    nth_error (read_variable_defs self f) i =
    Some (entry_of_line (nth (12 + i) lines [])).
Proof.
  cbv zeta. intros Hlen Hint Hcount Hreach.
  rewrite read_variable_defs_unfold. cbv zeta. rewrite Hint.
  destruct (Nat.ltb_spec (length (read_header_lines self f)) 11) as [Hlt|_]; [lia|].
  rewrite py_slice_nonneg by lia.
  replace (12 + count - 12) with count by lia.
  change (Z.to_nat 12) with 12%nat.
  split.
  - rewrite length_map, length_firstn, length_skipn. lia.
  - intros i Hi. rewrite nth_error_map, nth_error_firstn.
    destruct (Nat.ltb_spec i (Z.to_nat count)); [|lia].
    rewrite nth_error_skipn.
    rewrite (nth_error_nth' (read_header_lines self f) ([] : str)
               (n := (12 + i)%nat)) by lia.
    reflexivity.
Qed.

Lemma read_variable_defs_empty_witness :
  read_variable_defs (reader_with 15 (lit "1001")) (layout_file "15,1001" "two" "-9999, -9999") = [].
Proof.
  apply (read_variable_defs_empty (reader_with 15 (lit "1001"))
           (layout_file "15,1001" "two" "-9999, -9999")).
  right. vm_compute. reflexivity.
Defined.

Lemma read_variable_defs_layout_witness :
  length (read_variable_defs (reader_with 15 (lit "1001")) (layout_file "15,1001" "2" "-9999, -9999"))
  = 2%nat /\
  forall i, (i < 2)%nat ->
    nth_error (read_variable_defs (reader_with 15 (lit "1001"))
                                  (layout_file "15,1001" "2" "-9999, -9999")) i =
    Some (entry_of_line
            (nth (12 + i)
                 (read_header_lines (reader_with 15 (lit "1001"))
                                    (layout_file "15,1001" "2" "-9999, -9999")) [])).
Proof.
  apply (read_variable_defs_layout (reader_with 15 (lit "1001"))
           (layout_file "15,1001" "2" "-9999, -9999") 2).
  - vm_compute. repeat constructor.
  - vm_compute. reflexivity.
  - vm_compute. discriminate.
  - vm_compute. discriminate.
Defined.

(** The entries of the conventional layout, computed. *)
Example read_variable_defs_conventional :
  __init__ sample_path (layout_file "15,1001" "2" "-9999, -9999") = Ok (reader_with 15 (lit "1001")) /\
  read_variable_defs (reader_with 15 (lit "1001")) (layout_file "15,1001" "2" "-9999, -9999") =
  [ VariableDef.mk (lit "TEMP") (Some (lit "degC")) (Some (lit "Ambient temperature")) None;
    VariableDef.mk (lit "PRES") (Some (lit "hPa")) None None ].
Proof. split; vm_compute; reflexivity. Qed.

(** With a first line "13,1001" the header ends at index 12, so the block
    of two lines holds the line at index 12 only. *)
Example read_variable_defs_thirteen :
  __init__ sample_path (layout_file "13,1001" "2" "-9999, -9999") = Ok (reader_with 13 (lit "1001")) /\
  read_variable_defs (reader_with 13 (lit "1001")) (layout_file "13,1001" "2" "-9999, -9999") =
  [ VariableDef.mk (lit "TEMP") (Some (lit "degC")) (Some (lit "Ambient temperature")) None ].
Proof. split; vm_compute; reflexivity. Qed.

(** A count of zero or less gives the empty list as long as the stop of
    the slice, [12 + count], is not negative, or falls before index 12 when
    counted from the end. *)
Lemma read_variable_defs_nonpositive (self : ICARTTReader) (f : File) (count : Z) :
  let lines := read_header_lines self f in
  (11 <= length lines)%nat ->
  py_int (str_strip (nth 9 lines [])) = Some count ->
  count <= 0 ->
  -12 <= count \/ count <= - Z.of_nat (length lines) ->
  read_variable_defs self f = [].
Proof.
  cbv zeta. intros Hlen Hint Hcount Hrange.
  rewrite read_variable_defs_unfold. cbv zeta. rewrite Hint.
  destruct (Nat.ltb_spec (length (read_header_lines self f)) 11) as [Hlt|_]; [lia|].
  destruct (Z_le_gt_dec (-12) count) as [Hs|Hs].
  - rewrite py_slice_nonneg by lia.
    replace (Z.to_nat (12 + count - 12)) with O by lia. reflexivity.
  - destruct Hrange as [Hr|Hr]; [lia|].
    unfold py_slice, slice_bound.
    destruct (Z.ltb_spec (12 + count) 0); [|lia].
    destruct (Z.ltb_spec 12 0); [lia|].
    match goal with |- map _ (firstn ?n _) = _ => replace n with O by lia end.
    reflexivity.
Qed.

(** C10 at a count of -13: the stop of the slice is -1, which Python reads
    from the end of the list, and the block holds the header lines from
    index 12 to the last but one.  Two entries are returned, not none. *)
Theorem read_variable_defs_negative_count :
  __init__ sample_path (layout_file "15,1001" "-13" "-9999, -9999") = Ok (reader_with 15 (lit "1001")) /\
  length (read_header_lines (reader_with 15 (lit "1001"))
                            (layout_file "15,1001" "-13" "-9999, -9999")) = 15%nat /\
  py_int (str_strip (nth 9 (read_header_lines (reader_with 15 (lit "1001"))
                                              (layout_file "15,1001" "-13" "-9999, -9999")) []))
  = Some (-13) /\
  read_variable_defs (reader_with 15 (lit "1001")) (layout_file "15,1001" "-13" "-9999, -9999") =
  [ VariableDef.mk (lit "TEMP") (Some (lit "degC")) (Some (lit "Ambient temperature")) None;
    VariableDef.mk (lit "PRES") (Some (lit "hPa")) None None ].
Proof. repeat split; vm_compute; reflexivity. Qed.

(** ** Metadata *)

Lemma dict_get_notin (k : string) (d : dict) :
  ~ In k (map fst d) -> dict_get k d = None.
Proof.
  induction d as [|[k' v'] d IH]; intro H; [reflexivity|].
  simpl. destruct (String.eqb_spec k k') as [E|E].
  - exfalso. apply H. left. now rewrite E.
  - apply IH. intro Hin. apply H. now right.
Qed.

Lemma dict_set_fresh (k : string) (v : str) (d : dict) :
  ~ In k (map fst d) -> dict_set k v d = d ++ [(k, v)].
Proof.
  induction d as [|[k' v'] d IH]; intro H; [reflexivity|].
  simpl. destruct (String.eqb_spec k k') as [E|E].
  - exfalso. apply H. left. now rewrite E.
  - f_equal. apply IH. intro Hin. apply H. now right.
Qed.

Lemma keep_truthy_from (d : dict) :
  forall acc,
    NoDup (map fst (acc ++ d)) ->
    fold_left (fun a kv => if truthy (snd kv) then dict_set (fst kv) (snd kv) a else a)
              d acc
    = acc ++ filter truthy_entry d.
Proof.
  induction d as [|[k v] d IH]; intros acc Hnd.
  - simpl. now rewrite app_nil_r.
  - cbn [fold_left filter fst snd]. unfold truthy_entry at 1. cbn [snd].
    rewrite map_app in Hnd. cbn [map fst] in Hnd.
    destruct (truthy v).
    + rewrite dict_set_fresh.
      * rewrite IH.
        -- now rewrite <- app_assoc.
        -- rewrite <- app_assoc. cbn [app]. now rewrite map_app.
      * intro Hin. apply NoDup_remove_2 in Hnd. apply Hnd.
        apply in_or_app. now left.
    + apply IH. rewrite map_app. eapply NoDup_remove_1. exact Hnd.
Qed.

Lemma keep_truthy_filter (d : dict) :
  NoDup (map fst d) -> keep_truthy d = filter truthy_entry d.
Proof. intro H. unfold keep_truthy. now rewrite keep_truthy_from. Qed.

Lemma dict_get_filter (k : string) (d : dict) :
  NoDup (map fst d) ->
  dict_get k (filter truthy_entry d) =
  match dict_get k d with
  | Some v => nonempty v
  | None => None
  end.
Proof.
  induction d as [|[k' v'] d IH]; intro Hnd; [reflexivity|].
  inversion Hnd as [|? ? Hnotin Hnd']; subst.
  cbn [filter dict_get]. unfold truthy_entry at 1. cbn [snd].
  destruct (String.eqb_spec k k') as [E|E].
  - subst k'. destruct v' as [|c v'].
    + cbn [truthy nonempty]. apply dict_get_notin.
      intro Hin. apply Hnotin. apply in_map_iff in Hin.
      destruct Hin as [[k0 v0] [Hk Hin]]. apply filter_In in Hin.
      apply in_map_iff. exists (k0, v0). tauto.
    + cbn [truthy nonempty dict_get]. now rewrite String.eqb_refl.
  - destruct (truthy v').
    + cbn [dict_get]. destruct (String.eqb_spec k k'); [contradiction|]. now apply IH.
    + now apply IH.
Qed.

Lemma metadata_entries_nodup (self : ICARTTReader) (lines : list str) :
  NoDup (map fst (metadata_entries self lines)).
Proof.
  cbn [metadata_entries map fst].
  repeat (constructor; [cbn [In]; intuition discriminate|]). constructor.
Qed.

Lemma read_metadata_unfold (self : ICARTTReader) (f : File) :
  read_metadata self f =
  filter truthy_entry (metadata_entries self (read_header_lines self f)).
Proof.
  rewrite <- keep_truthy_filter by apply metadata_entries_nodup. reflexivity.
Qed.

Lemma safe_header_field (lines : list str) (i : nat) :
  nonempty (safe lines (Z.of_nat i)) = header_field lines i.
Proof.
  unfold safe, header_field.
  destruct (Z.leb_spec 0 (Z.of_nat i)); [|lia]. cbn [andb].
  rewrite Nat2Z.id.
  destruct (Z.ltb_spec (Z.of_nat i) (Z.of_nat (length lines))) as [Hlt|Hge].
  - rewrite (nth_error_nth' lines ([] : str) (n := i)) by lia. reflexivity.
  - assert (E : nth_error lines i = None) by (apply nth_error_None; lia).
    now rewrite E.
Qed.

Lemma str_of_int_nonempty (n : Z) : nonempty (str_of_int n) = Some (str_of_int n).
Proof.
  destruct n as [|p|p]; [reflexivity| |reflexivity].
  cbn [str_of_int]. pose proof (Unsigned.to_uint_nonnil p) as H.
  destruct (Pos.to_uint p); [contradiction|reflexivity..].
Qed.

Lemma path_str_nonempty' (p : Path) : nonempty (path_str p) = Some (path_str p).
Proof. destruct p as [s H]. cbn. destruct s; [discriminate|reflexivity]. Qed.

(** C7. [read_metadata] is a total function, so nothing is raised whatever
    the file holds.  No value of its result is empty; "path" and
    "header_length" are always present; "ffi" is present exactly when the
    cached format index is not empty, and each positional key exactly when
    the header has a line at its position whose stripped text is not empty,
    with that text as its value; no other key occurs. *)
Theorem read_metadata_total (self : ICARTTReader) (f : File) :
  let lines := read_header_lines self f in
  let meta := read_metadata self f in
  (forall k v, In (k, v) meta -> v <> []) /\
  (forall k v, dict_get k meta = Some v -> v <> []) /\
  dict_get "path" meta = Some (path_str (path self)) /\
  dict_get "header_length" meta =
    Some (str_of_int (ICARTTInfo.header_length (info self))) /\
  dict_get "ffi" meta = nonempty (ICARTTInfo.ffi (info self)) /\
  (forall k i, In (k, i) metadata_positions ->
               dict_get k meta = header_field lines i) /\
  (forall k v, In (k, v) meta ->
               In k ("path" :: "header_length" :: "ffi" :: map fst metadata_positions)%string).
Proof.
  cbv zeta. rewrite read_metadata_unfold.
  set (lines := read_header_lines self f).
  pose proof (metadata_entries_nodup self lines) as Hnd.
  assert (Hget : forall k v,
             dict_get k (filter truthy_entry (metadata_entries self lines)) = Some v ->
             v <> []).
  { intros k v. rewrite dict_get_filter by exact Hnd.
    destruct (dict_get k _) as [w|]; [|discriminate].
    destruct w; cbn; congruence. }
  repeat split.
  - intros k v Hin. apply filter_In in Hin. destruct Hin as [_ Ht].
    unfold truthy_entry in Ht. cbn in Ht. now apply truthy_true.
  - exact Hget.
  - rewrite dict_get_filter by exact Hnd. cbn. apply path_str_nonempty'.
  - rewrite dict_get_filter by exact Hnd. cbn. apply str_of_int_nonempty.
  - rewrite dict_get_filter by exact Hnd. reflexivity.
  - intros k i Hin. rewrite dict_get_filter by exact Hnd.
    cbn [metadata_positions In] in Hin.
    decompose [or] Hin; clear Hin; try contradiction;
      match goal with
      | H : (_, _) = (_, _) |- _ => inversion H; subst; clear H
      end;
      cbn -[safe nonempty header_field];
      match goal with
      | |- _ = header_field _ ?i => exact (safe_header_field lines i)
      end.
  - intros k v Hin. apply filter_In in Hin. destruct Hin as [Hin _].
    apply (in_map fst) in Hin. exact Hin.
Qed.

Example read_metadata_conventional :
  read_metadata (reader_with 15 (lit "1001")) (layout_file "15,1001" "2" "-9999, -9999") =
  [ ("path", lit "flight.ict"); ("header_length", lit "15"); ("ffi", lit "1001");
    ("pi", lit "Doe, Jane"); ("organization", lit "NASA Langley");
    ("data_description", lit "Sample data"); ("mission", lit "DISCOVER-AQ");
    ("volume_info", lit "1, 1"); ("date_info", lit "2014, 08, 02, 2014, 08, 03");
    ("data_interval", lit "1"); ("independent_variable", lit "Start_UTC, seconds") ]%string.
Proof. vm_compute. reflexivity. Qed.

Example read_metadata_empty_file :
  read_metadata (reader_with 0 []) [] =
  [ ("path", lit "flight.ict"); ("header_length", lit "0") ]%string.
Proof. vm_compute. reflexivity. Qed.

(** ** Character classes *)

Lemma in_ranges_iff (tbl : list (N * N)) (c : char) :
  in_ranges tbl c = true <-> exists r, In r tbl /\ in_range c r = true.
Proof. apply existsb_exists. Qed.

Lemma in_range_bounds (c : char) (r : N * N) :
  in_range c r = true <-> (fst r <= c <= snd r)%N.
Proof. unfold in_range. rewrite andb_true_iff, !N.leb_le. tauto. Qed.

Lemma ranges_disjoint_sound (t1 t2 : list (N * N)) (c : char) :
  ranges_disjoint t1 t2 = true -> in_ranges t1 c = true -> in_ranges t2 c = false.
Proof.
  intros Hd H1. apply in_ranges_iff in H1. destruct H1 as [r1 [Hin1 Hr1]].
  apply not_true_is_false. intro H2. apply in_ranges_iff in H2.
  destruct H2 as [r2 [Hin2 Hr2]].
  unfold ranges_disjoint in Hd. rewrite forallb_forall in Hd.
  specialize (Hd r1 Hin1). rewrite forallb_forall in Hd. specialize (Hd r2 Hin2).
  apply in_range_bounds in Hr1, Hr2.
  apply orb_true_iff in Hd. rewrite !N.ltb_lt in Hd. lia.
Qed.

Lemma ranges_from_sound (lo : N) (t : list (N * N)) (c : char) :
  ranges_from lo t = true -> in_ranges t c = true -> (lo <= c)%N.
Proof.
  intros Hf H. apply in_ranges_iff in H. destruct H as [r [Hin Hr]].
  unfold ranges_from in Hf. rewrite forallb_forall in Hf. specialize (Hf r Hin).
  apply in_range_bounds in Hr. apply N.leb_le in Hf. lia.
Qed.

Lemma decimal_not_space (c : char) : isdecimal_char c = true -> isspace c = false.
Proof. apply ranges_disjoint_sound. vm_compute. reflexivity. Qed.

Lemma decimal_ascii (c : char) :
  isdecimal_char c = true -> (c < 127)%N -> (48 <= c <= 57)%N.
Proof.
  intros H Hc.
  change (isdecimal_char c) with (in_range c (48, 57)%N || in_ranges (tl decimal_ranges) c) in H.
  apply orb_true_iff in H. destruct H as [H|H].
  - now apply in_range_bounds in H.
  - assert (127 <= c)%N; [|lia].
    eapply ranges_from_sound; [|exact H]. vm_compute. reflexivity.
Qed.

Lemma digit_ascii_decimal (c : char) :
  isdigit_char c = true -> (c < 128)%N -> isdecimal_char c = true.
Proof.
  intros H Hc. unfold isdigit_char in H. apply orb_true_iff in H.
  destruct H as [H|H]; [exact H|].
  assert (178 <= c)%N; [|lia].
  eapply ranges_from_sound; [|exact H]. vm_compute. reflexivity.
Qed.

Lemma int_isspace_isspace (c : char) : int_isspace c = true -> isspace c = true.
Proof.
  unfold int_isspace. destruct (N.ltb_spec c 127) as [Hc|Hc]; [|trivial].
  intro H. apply in_ranges_iff.
  rewrite orb_true_iff, andb_true_iff, !N.leb_le, N.eqb_eq in H.
  destruct H as [H|H].
  - exists (9, 13)%N. split; [now left | apply in_range_bounds; cbn; lia].
  - exists (28, 32)%N. split; [right; now left | apply in_range_bounds; cbn; lia].
Qed.

Lemma decimal_not_int_space (c : char) :
  isdecimal_char c = true -> int_isspace c = false.
Proof.
  intro H. apply not_true_is_false. intro Hs.
  apply int_isspace_isspace in Hs. rewrite (decimal_not_space c H) in Hs. discriminate.
Qed.

Lemma find_existsb {A : Type} (p : A -> bool) (l : list A) :
  existsb p l = true -> exists x, find p l = Some x.
Proof.
  induction l as [|a l IH]; [discriminate|].
  simpl. destruct (p a); [intros _; now exists a | exact IH].
Qed.

Lemma int_digit_decimal (c : char) :
  isdecimal_char c = true -> exists d, int_digit c = Some d.
Proof.
  intro H. unfold int_digit. destruct (N.ltb_spec c 127) as [Hc|Hc].
  - pose proof (decimal_ascii c H Hc) as Hb.
    destruct (N.leb_spec 48 c); [|lia]. destruct (N.leb_spec c 57); [|lia].
    eexists. reflexivity.
  - rewrite (decimal_not_space c H). unfold decimal_value.
    destruct (find_existsb (in_range c) decimal_ranges H) as [r Hr].
    rewrite Hr. eexists. reflexivity.
Qed.

Lemma decimal_not_underscore (c : char) :
  isdecimal_char c = true -> char_eqb c UNDERSCORE = false.
Proof.
  intro H. apply char_eqb_neq. intro E. subst c. vm_compute in H. discriminate.
Qed.

(** ** [int] on a sign followed by decimal digits *)

Lemma scan_digits_decimal (s : str) :
  forallb isdecimal_char s = true ->
  forall acc, exists v, scan_digits false acc s = Some v.
Proof.
  induction s as [|c s IH]; intros H acc.
  - now exists acc.
  - cbn [forallb] in H. apply andb_true_iff in H. destruct H as [Hc Hs].
    cbn [scan_digits]. rewrite (decimal_not_underscore c Hc).
    destruct (int_digit_decimal c Hc) as [d Hd]. rewrite Hd. now apply IH.
Qed.

Lemma lstrip_by_head (p : char -> bool) (c : char) (s : str) :
  p c = false -> lstrip_by p (c :: s) = c :: s.
Proof. intro H. simpl. now rewrite H. Qed.

Lemma py_int_signed_decimal (tok : str) :
  signed_decimal tok = true -> exists v, py_int tok = Some v.
Proof.
  destruct tok as [|c rest]; [discriminate|].
  cbn [signed_decimal]. rewrite !andb_true_iff.
  intros [[Hsign Hne] Hdec].
  assert (Hc : int_isspace c = false).
  { apply orb_true_iff in Hsign.
    destruct Hsign as [E|E]; apply char_eqb_eq in E; subst c; reflexivity. }
  assert (Hall : forall x, In x (c :: rest) -> int_isspace x = false).
  { intros x [Hx|Hx]; [now subst x|].
    apply decimal_not_int_space. rewrite forallb_forall in Hdec. now apply Hdec. }
  unfold py_int. rewrite (lstrip_by_head _ _ _ Hc), (rstrip_by_none _ _ Hall).
  destruct rest as [|d rest]; [discriminate|].
  assert (Hbody : exists v, int_body (d :: rest) = Some v).
  { cbn [int_body]. cbn [forallb] in Hdec. apply andb_true_iff in Hdec.
    rewrite (decimal_not_underscore d (proj1 Hdec)).
    apply scan_digits_decimal. cbn [forallb]. apply andb_true_iff. exact Hdec. }
  destruct Hbody as [v Hv]. rewrite Hv.
  destruct (char_eqb c PLUS); [now exists v|].
  destruct (char_eqb c MINUS) eqn:Em.
  - exists (- v). reflexivity.
  - apply orb_true_iff in Hsign. destruct Hsign as [E|E]; [discriminate E|congruence].
Qed.

(** ** Missing values *)

Lemma isspace_space : isspace SPACE = true.
Proof. reflexivity. Qed.

Lemma split_ws_tokens_from (s : str) :
  forall tok, split_ws_from tok (replace_char COMMA SPACE s) = tokens_from tok s.
Proof.
  induction s as [|c s IH]; intro tok; [reflexivity|].
  cbn [replace_char map split_ws_from tokens_from]. unfold is_separator.
  fold (replace_char COMMA SPACE s).
  destruct (char_eqb c COMMA).
  - rewrite isspace_space, orb_true_r. destruct tok; now rewrite IH.
  - rewrite orb_false_r. destruct (isspace c); [destruct tok|]; now rewrite IH.
Qed.

Lemma split_ws_tokens (ln : str) :
  split_ws (replace_char COMMA SPACE ln) = tokens ln.
Proof. apply split_ws_tokens_from. Qed.

Lemma sign_test (tok : str) :
  startswith_any [MINUS; PLUS] tok && str_isdigit (py_slice_from tok 1) =
  signed_digits tok.
Proof.
  destruct tok as [|c rest]; [reflexivity|].
  change 1 with (Z.of_nat 1). rewrite py_slice_from_nat.
  cbn [startswith_any existsb skipn signed_digits].
  now rewrite orb_false_r, (orb_comm (char_eqb c MINUS)).
Qed.

Lemma signed_decimal_digits (tok : str) :
  signed_decimal tok = true -> signed_digits tok = true.
Proof.
  destruct tok as [|c rest]; [discriminate|].
  cbn [signed_decimal signed_digits]. rewrite !andb_true_iff.
  intros [[Hs Hne] Hd]. split; [exact Hs|].
  destruct rest as [|d rest]; [discriminate|].
  unfold str_isdigit. rewrite forallb_forall in *.
  intros x Hx. unfold isdigit_char. now rewrite (Hd x Hx).
Qed.

Lemma scan_tokens_spec (toks : list str) :
  int_accepts_signed toks ->
  forall candidates,
    scan_tokens toks candidates = Ok (candidates ++ choose candidate toks).
Proof.
  induction toks as [|tok toks IH]; intros Hacc candidates.
  - simpl. now rewrite app_nil_r.
  - assert (Hacc' : int_accepts_signed toks)
      by (intros t Ht; apply Hacc; now right).
    cbn [scan_tokens choose]. rewrite sign_test. unfold candidate.
    destruct (signed_digits tok) eqn:Es; [|now apply IH].
    destruct (py_int_signed_decimal tok (Hacc tok (or_introl eq_refl) Es)) as [v Hv].
    unfold int_of_str. rewrite Hv. cbn [bind]. unfold py_abs.
    destruct (999 <=? Z.abs v).
    + rewrite IH by exact Hacc'. now rewrite <- app_assoc.
    + now apply IH.
Qed.

Lemma scan_lines_spec (lines : list str) :
  (forall ln, In ln lines -> int_accepts_signed (tokens ln)) ->
  forall candidates,
    scan_lines lines candidates = Ok (candidates ++ candidates_of lines).
Proof.
  induction lines as [|ln lines IH]; intros Hacc candidates.
  - simpl. now rewrite app_nil_r.
  - cbn [scan_lines]. rewrite split_ws_tokens.
    rewrite scan_tokens_spec by (apply Hacc; now left). cbn [bind].
    rewrite IH by (intros l Hl; apply Hacc; now right).
    unfold candidates_of. cbn [flat_map]. now rewrite <- app_assoc.
Qed.

Lemma filter_twice {A : Type} (p q : A -> bool) (l : list A) :
  filter p (filter q l) = filter (fun x => q x && p x) l.
Proof.
  induction l as [|a l IH]; [reflexivity|].
  simpl. destruct (q a); simpl; [destruct (p a)|]; now rewrite IH.
Qed.

Lemma mem_eqb (v w : Z) (seen : list Z) :
  mem w (v :: seen) = Z.eqb w v || mem w seen.
Proof. reflexivity. Qed.

Lemma dedup_loop_spec (candidates : list Z) :
  forall seen ordered,
    dedup_loop candidates seen ordered =
    ordered ++ filter (fun w => negb (mem w seen)) (dedup_first candidates).
Proof.
  induction candidates as [|v rest IH]; intros seen ordered.
  - simpl. now rewrite app_nil_r.
  - cbn [dedup_loop dedup_first filter]. destruct (mem v seen) eqn:Em.
    + cbn [negb]. rewrite IH. f_equal. rewrite filter_twice.
      apply filter_ext. intro w. destruct (Z.eqb_spec w v) as [E|E]; [|reflexivity].
      subst w. now rewrite Em.
    + cbn [negb]. rewrite IH, <- app_assoc. cbn [app]. do 2 f_equal.
      rewrite filter_twice. apply filter_ext. intro w. rewrite mem_eqb.
      now rewrite negb_orb.
Qed.

Lemma dedup_loop_first (candidates : list Z) :
  dedup_loop candidates [] [] = dedup_first candidates.
Proof.
  rewrite dedup_loop_spec. cbn [app mem existsb negb].
  induction (dedup_first candidates) as [|a l IH]; [reflexivity|].
  simpl. now rewrite IH.
Qed.

Lemma dedup_first_In (l : list Z) (v : Z) : In v (dedup_first l) <-> In v l.
Proof.
  induction l as [|x xs IH]; [reflexivity|].
  cbn [dedup_first In]. rewrite filter_In, IH, negb_true_iff, Z.eqb_neq.
  destruct (Z.eq_dec x v); intuition congruence.
Qed.

Lemma dedup_first_NoDup (l : list Z) : NoDup (dedup_first l).
Proof.
  induction l as [|x xs IH]; [constructor|].
  cbn [dedup_first]. constructor.
  - rewrite filter_In, negb_true_iff, Z.eqb_neq. tauto.
  - now apply NoDup_filter.
Qed.

(** The first occurrence of a value of [l] is kept where it stands: what
    comes before it in [l] and differs from it stays before it. *)
Lemma dedup_first_order (pre post : list Z) (v : Z) :
  ~ In v pre ->
  dedup_first (pre ++ v :: post) =
  dedup_first pre ++ v :: filter (fun w => negb (mem w (v :: pre))) (dedup_first post).
Proof.
  induction pre as [|x pre IH]; intro Hn.
  - cbn [app dedup_first]. f_equal. apply filter_ext. intro w.
    rewrite mem_eqb. cbn. now rewrite orb_false_r.
  - cbn [app dedup_first]. f_equal.
    rewrite IH by (intro H; apply Hn; now right).
    rewrite filter_app. f_equal. cbn [filter].
    destruct (Z.eqb_spec v x) as [E|E]; [exfalso; apply Hn; now left|].
    cbn [negb]. f_equal. rewrite filter_twice. apply filter_ext. intro w.
    rewrite !mem_eqb, !negb_orb.
    destruct (Z.eqb w v), (Z.eqb w x), (mem w pre); reflexivity.
Qed.

Lemma scanned_slice (self : ICARTTReader) (f : File) :
  let lines := read_header_lines self f in
  py_slice_to lines (Z.min (Z.of_nat (length lines)) 200) = scanned_lines self f.
Proof.
  cbv zeta. unfold scanned_lines.
  set (lines := read_header_lines self f).
  replace (Z.min (Z.of_nat (length lines)) 200)
    with (Z.of_nat (Nat.min (length lines) 200)) by lia.
  rewrite py_slice_to_nat.
  destruct (Nat.le_gt_cases (length lines) 200) as [H|H].
  - rewrite Nat.min_l by exact H. now rewrite !firstn_all2 by lia.
  - rewrite Nat.min_r by lia. reflexivity.
Qed.

Lemma guess_missing_values_unfold (self : ICARTTReader) (f : File) :
  (forall ln, In ln (scanned_lines self f) -> int_accepts_signed (tokens ln)) ->
  _guess_missing_values self f =
  Ok (match candidates_of (scanned_lines self f) with
      | [] => default_missing
      | _ :: _ => dedup_first (candidates_of (scanned_lines self f))
      end).
Proof.
  intro Hacc. unfold _guess_missing_values. cbv zeta.
  rewrite (scanned_slice self f), (scan_lines_spec _ Hacc). cbn [bind app].
  rewrite dedup_loop_first.
  destruct (candidates_of (scanned_lines self f)); reflexivity.
Qed.

Lemma decimal_signs_accepts (lines : list str) :
  decimal_signs lines = true ->
  forall ln, In ln lines -> int_accepts_signed (tokens ln).
Proof.
  unfold decimal_signs. rewrite forallb_forall. intros H ln Hln tok Htok Hs.
  specialize (H ln Hln). rewrite forallb_forall in H. specialize (H tok Htok).
  now rewrite Hs in H.
Qed.

Lemma in_choose {A B : Type} (g : A -> option B) (l : list A) (y : B) :
  In y (choose g l) <-> exists x, In x l /\ g x = Some y.
Proof.
  induction l as [|a l IH]; [simpl; split; [tauto | intros [x [[] _]]]|].
  cbn [choose]. destruct (g a) as [b|] eqn:E; cbn [In]; rewrite IH; split.
  - intros [Hb|[x [Hx Hg]]]; [exists a; subst; tauto | exists x; tauto].
  - intros [x [[Hx|Hx] Hg]]; [left; congruence | right; now exists x].
  - intros [x [Hx Hg]]. exists x. tauto.
  - intros [x [[Hx|Hx] Hg]]; [congruence | now exists x].
Qed.

Lemma candidate_iff (tok : str) (v : Z) :
  candidate tok = Some v <->
  signed_digits tok = true /\ py_int tok = Some v /\ 999 <= Z.abs v.
Proof.
  unfold candidate. destruct (signed_digits tok).
  - destruct (py_int tok) as [w|].
    + destruct (Z.leb_spec 999 (Z.abs w)) as [Hw|Hw]; split.
      * intro H. inversion H. subst. tauto.
      * intros (_ & H & _). exact H.
      * discriminate.
      * intros (_ & H & Hv). inversion H. subst. lia.
    + split; [discriminate | intros (_ & H & _); discriminate].
  - split; [discriminate | intros (H & _); discriminate].
Qed.

Lemma in_candidates_of (lines : list str) (v : Z) :
  In v (candidates_of lines) <->
  exists ln tok, In ln lines /\ In tok (tokens ln) /\
                 signed_digits tok = true /\ py_int tok = Some v /\ 999 <= Z.abs v.
Proof.
  unfold candidates_of. rewrite in_flat_map. split.
  - intros [ln [Hln Hv]]. apply in_choose in Hv. destruct Hv as [tok [Htok Hc]].
    apply candidate_iff in Hc. exists ln, tok. tauto.
  - intros (ln & tok & Hln & Htok & Hc). exists ln. split; [exact Hln|].
    apply in_choose. exists tok. split; [exact Htok|]. now apply candidate_iff.
Qed.

(** C6, as the code has it.  On a header in which every token made of a
    sign and digits has decimal digits only, and no more of them than the
    interpreter converts (4300), the candidates are the values
    of the tokens of the first 200 header lines that are a sign followed
    by digits and have a magnitude of at least 999; the heuristic returns
    them without repetitions, each at its first occurrence, when there is
    one, and the fixed list when there is none.  The fixed list is
    returned in these two cases only: no candidate, or candidates that are
    the fixed list themselves. *)
Theorem guess_missing_values_spec (self : ICARTTReader) (f : File) :
  let found := candidates_of (scanned_lines self f) in
  decimal_signs (scanned_lines self f) = true ->
  digits_within_limit (scanned_lines self f) = true ->
  (forall v, In v found <->
             exists ln tok,
               In ln (scanned_lines self f) /\ In tok (tokens ln) /\
               signed_digits tok = true /\ py_int tok = Some v /\ 999 <= Z.abs v) /\
  _guess_missing_values self f =
    Ok (match found with
        | [] => default_missing
        | _ :: _ => dedup_first found
        end) /\
  (found = [] -> _guess_missing_values self f = Ok default_missing) /\
  (_guess_missing_values self f = Ok default_missing <->
   found = [] \/ dedup_first found = default_missing).
Proof.
  cbv zeta. intros Hdec _.
  pose proof (guess_missing_values_unfold self f
                (decimal_signs_accepts _ Hdec)) as Hg.
  split; [intro v; apply in_candidates_of|].
  split; [exact Hg|].
  split; [intro He; rewrite Hg, He; reflexivity|].
  rewrite Hg. destruct (candidates_of (scanned_lines self f)) as [|x l].
  - split; [now left | reflexivity].
  - split.
    + intro H. right. congruence.
    + intros [H|H]; [discriminate | now rewrite H].
Qed.

Lemma guess_missing_values_spec_witness :
  _guess_missing_values (reader_with 15 (lit "1001"))
                        (layout_file "15,1001" "2" "-9999, +99999, -9999") =
  Ok [-9999; 99999].
Proof.
  apply (guess_missing_values_spec (reader_with 15 (lit "1001"))
           (layout_file "15,1001" "2" "-9999, +99999, -9999")).
  - vm_compute. reflexivity.
  - vm_compute. reflexivity.
Defined.

(** C6 as stated fails in its "only if": a header that lists the five
    defaults has candidates, and the fixed list is what is returned. *)
Lemma guess_missing_values_defaults_found :
  candidates_of (scanned_lines (reader_with 15 (lit "1001"))
                   (layout_file "15,1001" "2" "-9999, -99999, -8888, +9999, +99999"))
  = [-9999; -99999; -8888; 9999; 99999] /\
  _guess_missing_values (reader_with 15 (lit "1001"))
    (layout_file "15,1001" "2" "-9999, -99999, -8888, +9999, +99999")
  = Ok default_missing.
Proof. split; vm_compute; reflexivity. Qed.

(** A header of ASCII characters meets the condition of C6. *)
Lemma tokens_from_chars (s : str) :
  forall acc tok c,
    In tok (tokens_from acc s) -> In c tok -> In c acc \/ In c s.
Proof.
  induction s as [|x s IH]; intros acc tok c Htok Hc.
  - destruct acc as [|a acc]; [contradiction|].
    destruct Htok as [E|[]]. subst tok. left. now apply in_rev.
  - cbn [tokens_from] in Htok. destruct (is_separator x).
    + destruct acc as [|a acc].
      * destruct (IH [] tok c Htok Hc) as [[]|H]. right. now right.
      * destruct Htok as [E|Htok].
        -- subst tok. left. now apply in_rev.
        -- destruct (IH [] tok c Htok Hc) as [[]|H]. right. now right.
    + destruct (IH (x :: acc) tok c Htok Hc) as [[E|H]|H].
      * right. now left.
      * now left.
      * right. now right.
Qed.

Lemma ascii_decimal_signs (lines : list str) :
  (forall ln c, In ln lines -> In c ln -> (c < 128)%N) ->
  decimal_signs lines = true.
Proof.
  intro Hascii. unfold decimal_signs. apply forallb_forall. intros ln Hln.
  apply forallb_forall. intros tok Htok.
  destruct (signed_digits tok) eqn:Es; [|reflexivity]. cbn [implb].
  destruct tok as [|s rest]; [discriminate|].
  cbn [signed_digits signed_decimal] in *.
  apply andb_true_iff in Es. destruct Es as [Hs Hd]. rewrite Hs. cbn [andb].
  destruct rest as [|d rest]; [discriminate|]. cbn [truthy andb].
  unfold str_isdigit in Hd. rewrite forallb_forall in *. intros x Hx.
  apply digit_ascii_decimal; [now apply Hd|].
  apply (Hascii ln x Hln).
  destruct (tokens_from_chars ln [] (s :: d :: rest) x Htok) as [[]|H];
    [now right | exact H].
Qed.

(** Where the condition fails, [int] raises: a superscript digit is a
    digit for [isdigit] and no digit for [int].  The exception leaves
    [_guess_missing_values], and [read_table] with it. *)
Example guess_missing_values_raises :
  __init__ sample_path superscript_file = Ok (reader_with 3 (lit "1001")) /\
  decimal_signs (scanned_lines (reader_with 3 (lit "1001")) superscript_file) = false /\
  _guess_missing_values (reader_with 3 (lit "1001")) superscript_file = Raise ValueError /\
  read_table _ recording_read_csv (fun _ => []) (fun df _ => df)
             (reader_with 3 (lit "1001")) superscript_file None true
  = Raise ValueError.
Proof. repeat split; vm_compute; reflexivity. Qed.

(** * Further properties *)

(** ** [int] and [str] *)

Lemma scan_uint_acc (d : Decimal.uint) :
  forall p, scan_digits false (Zpos p) (uint_chars d) =
            Some (Zpos (Pos.of_uint_acc d p)).
Proof.
  induction d as [|d IH|d IH|d IH|d IH|d IH|d IH|d IH|d IH|d IH|d IH]; intro p;
    [reflexivity|..];
    cbn [uint_chars scan_digits Pos.of_uint_acc];
    change (char_eqb _ UNDERSCORE) with false; cbv iota;
    match goal with
    | |- context [int_digit ?c] =>
        let v := eval vm_compute in (int_digit c) in
        change (int_digit c) with v
    end; cbv iota;
    match goal with
    | |- scan_digits false ?a _ = Some (Zpos (Pos.of_uint_acc _ ?q)) =>
        replace a with (Zpos q) by lia
    end; apply IH.
Qed.

Lemma scan_uint (d : Decimal.uint) :
  scan_digits false 0 (uint_chars d) = Some (Z.of_N (Pos.of_uint d)).
Proof.
  induction d as [|d IH|d IH|d IH|d IH|d IH|d IH|d IH|d IH|d IH|d IH];
    [reflexivity | exact IH | ..];
    cbn [uint_chars scan_digits Pos.of_uint];
    change (char_eqb _ UNDERSCORE) with false; cbv iota;
    match goal with
    | |- context [int_digit ?c] =>
        let v := eval vm_compute in (int_digit c) in
        change (int_digit c) with v
    end; cbv iota;
    match goal with
    | |- scan_digits false ?a _ = _ =>
        let v := eval vm_compute in a in change a with v
    end; apply scan_uint_acc.
Qed.

Lemma uint_chars_digits (d : Decimal.uint) :
  forall c, In c (uint_chars d) -> (48 <= c <= 57)%N.
Proof.
  induction d as [|d IH|d IH|d IH|d IH|d IH|d IH|d IH|d IH|d IH|d IH];
    intros c Hc; [contradiction|..];
    (destruct Hc as [E|Hc]; [subst c; lia | now apply IH]).
Qed.

Lemma ascii_digit_not_int_space (c : char) :
  (48 <= c <= 57)%N -> int_isspace c = false.
Proof.
  intro H. unfold int_isspace.
  destruct (N.ltb_spec c 127); [|lia].
  destruct (N.leb_spec c 13); [lia|]. rewrite andb_false_r.
  destruct (N.eqb_spec c 32); [lia | reflexivity].
Qed.

Lemma py_int_digits (s : str) :
  s <> [] -> (forall c, In c s -> (48 <= c <= 57)%N) ->
  py_int s = scan_digits false 0 s /\
  py_int (MINUS :: s) = option_map Z.opp (scan_digits false 0 s).
Proof.
  intros Hne Hd.
  assert (Hsp : forall c, In c s -> int_isspace c = false)
    by (intros c Hc; apply ascii_digit_not_int_space, Hd, Hc).
  destruct s as [|c s]; [contradiction|].
  assert (Hc : (48 <= c <= 57)%N) by (apply Hd; now left).
  assert (Hu : char_eqb c UNDERSCORE = false)
    by (apply char_eqb_neq; unfold UNDERSCORE; lia).
  split.
  - unfold py_int.
    rewrite (lstrip_by_head _ _ _ (Hsp c (or_introl eq_refl))), (rstrip_by_none _ _ Hsp).
    destruct (N.eqb_spec c PLUS) as [E|_]; [unfold PLUS in E; lia|].
    destruct (N.eqb_spec c MINUS) as [E|_]; [unfold MINUS in E; lia|].
    unfold char_eqb.
    destruct (N.eqb_spec c PLUS) as [E|_]; [unfold PLUS in E; lia|].
    destruct (N.eqb_spec c MINUS) as [E|_]; [unfold MINUS in E; lia|].
    cbn [int_body]. now rewrite Hu.
  - unfold py_int.
    rewrite (lstrip_by_head int_isspace MINUS (c :: s) eq_refl).
    rewrite rstrip_by_none
      by (intros x [E|Hx]; [now subst x | now apply Hsp]).
    change (char_eqb MINUS PLUS) with false.
    change (char_eqb MINUS MINUS) with true. cbv iota.
    cbn [int_body]. now rewrite Hu.
Qed.

Lemma uint_chars_nonempty (p : positive) : uint_chars (Pos.to_uint p) <> [].
Proof.
  pose proof (Unsigned.to_uint_nonnil p) as H.
  destruct (Pos.to_uint p); [contradiction|discriminate..].
Qed.

(** [int(str(n)) == n] *)
Lemma py_int_str_of_int (n : Z) : py_int (str_of_int n) = Some n.
Proof.
  destruct n as [|p|p]; [reflexivity| |]; cbn [str_of_int];
    destruct (py_int_digits (uint_chars (Pos.to_uint p))
                (uint_chars_nonempty p) (uint_chars_digits _)) as [H1 H2].
  - rewrite H1, scan_uint, Unsigned.of_to. reflexivity.
  - rewrite H2, scan_uint, Unsigned.of_to. reflexivity.
Qed.

(** ** Stripping *)

Lemma lstrip_by_suffix (p : char -> bool) (s : str) :
  exists pre, s = pre ++ lstrip_by p s.
Proof.
  induction s as [|c s [pre IH]]; [now exists []|].
  cbn [lstrip_by]. destruct (p c).
  - exists (c :: pre). cbn. now rewrite <- IH.
  - now exists [].
Qed.

Lemma rstrip_by_prefix (p : char -> bool) (s : str) :
  exists post, s = rstrip_by p s ++ post.
Proof.
  induction s as [|c s [post IH]]; [now exists []|].
  cbn [rstrip_by]. destruct (rstrip_by p s) as [|x r].
  - destruct (p c); [now exists (c :: s) | exists s; reflexivity].
  - exists post. cbn [app]. f_equal. exact IH.
Qed.

Lemma in_str_strip (c : char) (s : str) : In c (str_strip s) -> In c s.
Proof.
  intro H. unfold str_strip in H.
  destruct (rstrip_by_prefix isspace (lstrip_by isspace s)) as [post Hpost].
  destruct (lstrip_by_suffix isspace s) as [pre Hpre].
  rewrite Hpre. apply in_or_app. right. rewrite Hpost. apply in_or_app. now left.
Qed.

Lemma lstrip_by_hd (p : char -> bool) (s : str) (c : char) (r : str) :
  lstrip_by p s = c :: r -> p c = false.
Proof.
  induction s as [|a s IH]; [discriminate|].
  cbn [lstrip_by]. destruct (p a) eqn:E; [exact IH|].
  intro H. inversion H. now subst.
Qed.

Lemma rstrip_by_last (p : char -> bool) (s : str) (d : char) :
  rstrip_by p s <> [] -> p (last (rstrip_by p s) d) = false.
Proof.
  induction s as [|a s IH]; [intro H; contradiction|].
  cbn [rstrip_by]. destruct (rstrip_by p s) as [|x r] eqn:E.
  - destruct (p a) eqn:Ea; [intro H; contradiction | intros _; exact Ea].
  - intros _. change (last (a :: x :: r) d) with (last (x :: r) d).
    apply IH. discriminate.
Qed.

Lemma rstrip_by_keeps_head (p : char -> bool) (c : char) (s : str) :
  p c = false -> exists r, rstrip_by p (c :: s) = c :: r.
Proof.
  intro H. cbn [rstrip_by]. destruct (rstrip_by p s) as [|x r].
  - rewrite H. now exists [].
  - now exists (x :: r).
Qed.

Lemma str_strip_stripped (s : str) : is_stripped (str_strip s) = true.
Proof.
  unfold str_strip. destruct (lstrip_by isspace s) as [|c r] eqn:E; [reflexivity|].
  pose proof (lstrip_by_hd _ _ _ _ E) as Hc.
  destruct (rstrip_by_keeps_head isspace c r Hc) as [r' Hr].
  pose proof (rstrip_by_last isspace (c :: r) c) as Hl.
  rewrite Hr in *. cbn [is_stripped]. rewrite Hc, Hl by discriminate. reflexivity.
Qed.

Lemma lstrip_by_snoc (p : char -> bool) (s : str) (c : char) :
  lstrip_by p (s ++ [c]) =
  match lstrip_by p s with
  | [] => lstrip_by p [c]
  | r => r ++ [c]
  end.
Proof.
  induction s as [|a s IH]; [reflexivity|].
  cbn [app lstrip_by]. destruct (p a); [exact IH | reflexivity].
Qed.

Lemma str_strip_snoc_space (s : str) (c : char) :
  isspace c = true -> str_strip (s ++ [c]) = str_strip s.
Proof.
  intro H. unfold str_strip. rewrite lstrip_by_snoc.
  destruct (lstrip_by isspace s) as [|x r].
  - cbn [lstrip_by]. now rewrite H.
  - rewrite rstrip_by_snoc, H. reflexivity.
Qed.

(** ** Lines and text *)

Lemma readlines_concat (s : str) : concat (readlines s) = s.
Proof.
  induction s as [|c s IH]; [reflexivity|].
  cbn [readlines]. destruct (char_eqb c LF) eqn:E.
  - apply char_eqb_eq in E. subst c. cbn. now rewrite IH.
  - destruct (readlines s) as [|line more]; cbn in *; now rewrite <- IH.
Qed.

Lemma in_readlines (s line : str) (c : char) :
  In line (readlines s) -> In c line -> In c s.
Proof.
  intros Hl Hc. rewrite <- (readlines_concat s). apply in_concat.
  now exists line.
Qed.

Lemma universal_newlines_no_cr_upto (n : nat) :
  forall s, (length s <= n)%nat -> ~ In CR (universal_newlines s).
Proof.
  induction n as [|n IH]; intros s Hn.
  - destruct s; [intros [] | cbn in Hn; lia].
  - destruct s as [|c s]; [intros []|]. cbn in Hn.
    cbn [universal_newlines]. destruct (char_eqb c CR) eqn:E.
    + intros [H|H]; [discriminate H|].
      destruct s as [|d s]; [contradiction|].
      destruct (char_eqb d LF); revert H; apply IH; cbn in *; lia.
    + apply char_eqb_neq in E. intros [H|H]; [congruence|].
      revert H. apply IH. lia.
Qed.

Lemma universal_newlines_no_cr (s : str) : ~ In CR (universal_newlines s).
Proof. apply (universal_newlines_no_cr_upto (length s)). lia. Qed.

Lemma universal_newlines_id (s : str) :
  ~ In CR s -> universal_newlines s = s.
Proof.
  induction s as [|c s IH]; intro H; [reflexivity|].
  cbn [universal_newlines]. destruct (char_eqb c CR) eqn:E.
  - apply char_eqb_eq in E. exfalso. apply H. now left.
  - f_equal. apply IH. intro Hin. apply H. now right.
Qed.

Lemma universal_newlines_crlf (s : str) :
  ~ In CR s -> universal_newlines (to_crlf s) = s.
Proof.
  induction s as [|c s IH]; intro H; [reflexivity|].
  assert (Hs : ~ In CR s) by (intro Hin; apply H; now right).
  assert (Hc : char_eqb c CR = false)
    by (apply char_eqb_neq; intro E; apply H; now left).
  unfold to_crlf. cbn [flat_map]. fold (to_crlf s).
  destruct (char_eqb c LF) eqn:E.
  - apply char_eqb_eq in E. subst c.
    change (universal_newlines (([CR; LF]) ++ to_crlf s))
      with (LF :: universal_newlines (to_crlf s)).
    now rewrite IH.
  - cbn [app universal_newlines]. rewrite Hc. now rewrite IH.
Qed.

Lemma in_firstn {A : Type} (n : nat) (l : list A) (x : A) :
  In x (firstn n l) -> In x l.
Proof.
  intro H. rewrite <- (firstn_skipn n l). apply in_or_app. now left.
Qed.

Lemma in_skipn {A : Type} (n : nat) (l : list A) (x : A) :
  In x (skipn n l) -> In x l.
Proof.
  intro H. rewrite <- (firstn_skipn n l). apply in_or_app. now right.
Qed.

Lemma header_line_source (self : ICARTTReader) (f : File) (l : str) :
  In l (read_header_lines self f) ->
  exists line, In line (file_lines f) /\ l = rstrip_newline line /\
               terminated line l.
Proof.
  rewrite read_header_lines_spec. intro H. apply in_map_iff in H.
  destruct H as [line [E Hin]]. apply in_firstn in Hin.
  exists line. split; [exact Hin|]. split; [now symmetry|].
  pose proof (readlines_terminated (open_text f)) as HF.
  rewrite Forall_forall in HF. rewrite <- E. now apply HF.
Qed.

Lemma header_line_clean (self : ICARTTReader) (f : File) (l : str) :
  In l (read_header_lines self f) -> ~ In LF l /\ ~ In CR l.
Proof.
  intro Hl. destruct (header_line_source self f l Hl) as [line (Hin & E & Ht)].
  split.
  - inversion Ht; assumption.
  - intro Hc. apply (universal_newlines_no_cr f).
    apply (in_readlines (open_text f) line CR Hin).
    inversion Ht; subst; [apply in_or_app; now left | exact Hc].
Qed.

(** X1. No header line holds a line feed or a carriage return. *)
Theorem header_lines_no_terminator (self : ICARTTReader) (f : File) :
  Forall (fun l => ~ In LF l /\ ~ In CR l) (read_header_lines self f).
Proof. apply Forall_forall. intros l Hl. now apply (header_line_clean self f). Qed.

(** X2. A reader with a smaller header length reads a prefix of what a
    reader with a larger one reads from the same file. *)
Theorem header_lines_prefix (r1 r2 : ICARTTReader) (f : File) :
  ICARTTInfo.header_length (info r1) <= ICARTTInfo.header_length (info r2) ->
  read_header_lines r1 f =
  firstn (Z.to_nat (ICARTTInfo.header_length (info r1))) (read_header_lines r2 f).
Proof.
  intro H. rewrite !read_header_lines_spec, firstn_map, firstn_firstn.
  now rewrite Nat.min_l by lia.
Qed.

Lemma header_lines_prefix_witness :
  read_header_lines (reader_with 2 (lit "1001")) zero_header_file =
  firstn (Z.to_nat 2) (read_header_lines (reader_with 15 (lit "1001")) zero_header_file).
Proof.
  apply (header_lines_prefix (reader_with 2 (lit "1001")) (reader_with 15 (lit "1001"))
           zero_header_file).
  vm_compute. discriminate.
Defined.

Lemma readline_shape (s : str) :
  s = fst (readline s) ++ snd (readline s) /\
  ((exists body, fst (readline s) = body ++ [LF] /\ ~ In LF body) \/
   (snd (readline s) = [] /\ ~ In LF (fst (readline s)))).
Proof.
  induction s as [|c s [IH1 IH2]].
  - split; [reflexivity|]. right. split; [reflexivity | intros []].
  - cbn [readline]. destruct (char_eqb c LF) eqn:E.
    + apply char_eqb_eq in E. subst c. split; [reflexivity|].
      left. exists []. split; [reflexivity | intros []].
    + apply char_eqb_neq in E.
      destruct (readline s) as [line rest]. cbn [fst snd] in *. split.
      * cbn [app]. now rewrite <- IH1.
      * destruct IH2 as [[body [Hb Hn]]|[Hr Hn]].
        -- left. exists (c :: body). split; [cbn [app]; now rewrite Hb|].
           intros [H|H]; [congruence | contradiction].
        -- right. split; [exact Hr|]. intros [H|H]; [congruence | contradiction].
Qed.

Lemma readlines_nil (s : str) : readlines s = [] -> s = [].
Proof. intro H. rewrite <- (readlines_concat s), H. reflexivity. Qed.

Lemma join_prefix (n : nat) :
  forall s, exists rest,
    s = str_join [LF] (map rstrip_newline (firstn n (readlines s))) ++ rest /\
    ((length (readlines s) <= n)%nat -> rest = [] \/ rest = [LF]).
Proof.
  induction n as [|n IH]; intro s.
  - exists s. split; [reflexivity|]. intro H.
    left. apply readlines_nil. destruct (readlines s); [reflexivity | cbn in H; lia].
  - destruct s as [|c s0]; [exists []; split; [reflexivity | now left]|].
    rewrite readlines_readline.
    destruct (readline_shape (c :: s0)) as [Hs Hshape].
    set (line := fst (readline (c :: s0))) in *.
    set (s' := snd (readline (c :: s0))) in *.
    destruct (IH s') as [rest' [Hs' Hc']].
    cbn [firstn map length].
    destruct Hshape as [[body [Hb Hn]]|[Hr Hn]].
    + rewrite Hb, (rstrip_newline_lf body Hn).
      destruct (map rstrip_newline (firstn n (readlines s'))) as [|m M] eqn:EM.
      * exists (LF :: s'). split.
        -- rewrite Hs, Hb, <- app_assoc. reflexivity.
        -- intro Hlen. right. f_equal. apply readlines_nil.
           destruct (readlines s') as [|x xs]; [reflexivity|].
           destruct n; [cbn in Hlen; lia | discriminate EM].
      * exists rest'. split.
        -- rewrite Hs, Hb. cbn [str_join]. rewrite Hs' at 1.
           now rewrite <- !app_assoc.
        -- intro Hlen. apply Hc'. lia.
    + rewrite (rstrip_newline_no_lf line Hn). exists [].
      assert (E : readlines s' = []) by now rewrite Hr.
      rewrite E, firstn_nil. cbn [map str_join]. split; [|now left].
      rewrite Hs at 1. now rewrite Hr.
Qed.

(** X3. The header lines, joined by line feeds, are the beginning of the
    text of the file; when the header length reaches the end of the file,
    nothing is left but at most the final line feed. *)
Theorem header_lines_join (self : ICARTTReader) (f : File) :
  exists rest,
    open_text f = str_join [LF] (read_header_lines self f) ++ rest /\
    ((length (file_lines f) <= Z.to_nat (ICARTTInfo.header_length (info self)))%nat ->
     rest = [] \/ rest = [LF]).
Proof. rewrite read_header_lines_spec. apply join_prefix. Qed.

Example header_lines_join_whole :
  open_text zero_header_file =
  str_join [LF] (read_header_lines (reader_with 15 (lit "1001")) zero_header_file) ++ [LF].
Proof. vm_compute. reflexivity. Qed.

(** X4. After construction, the first header line is the line the header
    length was read from: stripped, split on commas and stripped again, its
    first token parses as the cached header length and its second is the
    cached format index. *)
Theorem first_header_line_declares (p : Path) (f : File) (self : ICARTTReader) :
  __init__ p f = Ok self ->
  1 <= ICARTTInfo.header_length (info self) ->
  exists l0,
    nth_error (read_header_lines self f) 0 = Some l0 /\
    py_int (nth 0 (map str_strip (split_on COMMA (str_strip l0))) [])
    = Some (ICARTTInfo.header_length (info self)) /\
    nth 1 (map str_strip (split_on COMMA (str_strip l0))) []
    = ICARTTInfo.ffi (info self).
Proof.
  intros Hinit Hn. rewrite init_unfold, read_info_unfold in Hinit.
  assert (Hparts : exists l0,
             nth_error (read_header_lines self f) 0 = Some l0 /\
             first_line_parts f = map str_strip (split_on COMMA (str_strip l0))).
  { unfold read_header_lines, first_line_parts.
    destruct (Z.to_nat (ICARTTInfo.header_length (info self))) as [|n] eqn:En; [lia|].
    destruct (open_text f) as [|c s] eqn:Et.
    - unfold first_line_parts in Hinit. rewrite Et in Hinit.
      discriminate Hinit.
    - pose proof (readline_cons_truthy c s) as Ht.
      destruct (readline_shape (c :: s)) as [_ Hshape].
      cbn [read_header_loop].
      destruct (readline (c :: s)) as [line rest]. cbn [fst snd] in *.
      rewrite Ht, read_header_loop_spec. cbn [app nth_error].
      exists (rstrip_newline line). split; [reflexivity|].
      destruct Hshape as [[body [Hb Hnl]]|[_ Hnl]].
      + rewrite Hb, (rstrip_newline_lf body Hnl).
        now rewrite (str_strip_snoc_space body LF eq_refl).
      + now rewrite (rstrip_newline_no_lf line Hnl). }
  destruct Hparts as [l0 [H0 Hp]]. exists l0. split; [exact H0|].
  rewrite <- Hp.
  destruct (length (first_line_parts f) <? 2)%nat; [discriminate|].
  destruct (py_int (nth 0 (first_line_parts f) [])) as [n|]; [|discriminate].
  inversion Hinit. subst self. cbn. split; reflexivity.
Qed.

Lemma first_header_line_declares_witness :
  exists l0,
    nth_error (read_header_lines (reader_with 15 (lit "1001"))
                 (layout_file "15,1001" "2" "-9999, -9999")) 0 = Some l0 /\
    py_int (nth 0 (map str_strip (split_on COMMA (str_strip l0))) []) = Some 15 /\
    nth 1 (map str_strip (split_on COMMA (str_strip l0))) [] = lit "1001".
Proof.
  apply (first_header_line_declares sample_path
           (layout_file "15,1001" "2" "-9999, -9999") (reader_with 15 (lit "1001"))).
  - vm_compute. reflexivity.
  - vm_compute. discriminate.
Defined.

(** X5. Line endings do not matter: a file without carriage returns, and
    the same file with every line feed written as carriage return and line
    feed, construct the same reader and give the same header lines,
    metadata, variable definitions and missing-value guess. *)
Theorem crlf_same_results (p : Path) (self : ICARTTReader) (f : File) :
  ~ In CR f ->
  __init__ p (to_crlf f) = __init__ p f /\
  read_header_lines self (to_crlf f) = read_header_lines self f /\
  read_metadata self (to_crlf f) = read_metadata self f /\
  read_variable_defs self (to_crlf f) = read_variable_defs self f /\
  _guess_missing_values self (to_crlf f) = _guess_missing_values self f.
Proof.
  intro H.
  assert (Ht : open_text (to_crlf f) = open_text f).
  { unfold open_text. now rewrite universal_newlines_crlf, universal_newlines_id. }
  assert (Hl : read_header_lines self (to_crlf f) = read_header_lines self f)
    by (unfold read_header_lines; now rewrite Ht).
  repeat split.
  - unfold __init__, _read_info. now rewrite Ht.
  - exact Hl.
  - unfold read_metadata. now rewrite Hl.
  - unfold read_variable_defs. now rewrite Hl.
  - unfold _guess_missing_values. now rewrite Hl.
Qed.

Lemma crlf_same_results_witness :
  __init__ sample_path (to_crlf zero_header_file) = __init__ sample_path zero_header_file /\
  read_header_lines (reader_with 2 (lit "1001")) (to_crlf zero_header_file)
  = read_header_lines (reader_with 2 (lit "1001")) zero_header_file /\
  read_metadata (reader_with 2 (lit "1001")) (to_crlf zero_header_file)
  = read_metadata (reader_with 2 (lit "1001")) zero_header_file /\
  read_variable_defs (reader_with 2 (lit "1001")) (to_crlf zero_header_file)
  = read_variable_defs (reader_with 2 (lit "1001")) zero_header_file /\
  _guess_missing_values (reader_with 2 (lit "1001")) (to_crlf zero_header_file)
  = _guess_missing_values (reader_with 2 (lit "1001")) zero_header_file.
Proof.
  apply (crlf_same_results sample_path (reader_with 2 (lit "1001")) zero_header_file).
  vm_compute. intuition discriminate.
Defined.

(** ** More on the metadata *)

(** X6. The "header_length" entry of the metadata is always present, and
    [int] reads the cached header length back from it. *)
Theorem metadata_header_length_roundtrip (self : ICARTTReader) (f : File) :
  exists s,
    dict_get "header_length" (read_metadata self f) = Some s /\
    py_int s = Some (ICARTTInfo.header_length (info self)).
Proof.
  exists (str_of_int (ICARTTInfo.header_length (info self))). split.
  - rewrite read_metadata_unfold, dict_get_filter by apply metadata_entries_nodup.
    cbn. apply str_of_int_nonempty.
  - apply py_int_str_of_int.
Qed.

Lemma safe_cases (lines : list str) (i : Z) :
  safe lines i = [] \/ exists l, In l lines /\ safe lines i = str_strip l.
Proof.
  unfold safe. destruct (0 <=? i) eqn:E1; [|now left].
  destruct (i <? Z.of_nat (length lines)) eqn:E2; [|now left].
  right. cbn [andb]. exists (nth (Z.to_nat i) lines []). split; [|reflexivity].
  apply nth_In. apply Z.leb_le in E1. apply Z.ltb_lt in E2. lia.
Qed.

(** X7. The value of every positional key of the metadata has no
    whitespace at either end and holds no line terminator. *)
Theorem metadata_values_stripped (self : ICARTTReader) (f : File) :
  Forall (fun kv =>
            In (fst kv) (map fst metadata_positions) ->
            is_stripped (snd kv) = true /\ ~ In LF (snd kv) /\ ~ In CR (snd kv))
         (read_metadata self f).
Proof.
  rewrite read_metadata_unfold. apply Forall_forall. intros [k v] Hin Hk.
  apply filter_In in Hin. destruct Hin as [Hin _]. cbn [fst snd] in *.
  set (lines := read_header_lines self f) in *.
  assert (Hv : exists i, v = safe lines i).
  { cbn [metadata_entries In] in Hin. cbn [metadata_positions map fst In] in Hk.
    decompose [or] Hin; clear Hin; try contradiction;
      match goal with
      | H : (_, _) = (_, _) |- _ => inversion H; subst; clear H
      end;
      try (eexists; reflexivity);
      exfalso; decompose [or] Hk; try discriminate; contradiction. }
  destruct Hv as [i Hv]. subst v.
  destruct (safe_cases lines i) as [E|[l [Hl E]]]; rewrite E.
  - repeat split; intros [].
  - destruct (header_line_clean self f l Hl) as [Hlf Hcr].
    split; [apply str_strip_stripped|].
    split; intro H; apply in_str_strip in H; contradiction.
Qed.

Lemma filter_map_fst_NoDup (d : dict) :
  NoDup (map fst d) -> NoDup (map fst (filter truthy_entry d)).
Proof.
  induction d as [|[k v] d IH]; intro H; [constructor|].
  inversion H as [|? ? Hn Hd]; subst. cbn [filter].
  destruct (truthy_entry (k, v)); [|now apply IH].
  cbn [map fst]. constructor; [|now apply IH].
  intro Hin. apply Hn. apply in_map_iff in Hin.
  destruct Hin as [[k' v'] [Hk Hin]]. apply filter_In in Hin.
  apply in_map_iff. exists (k', v'). tauto.
Qed.

(** X8. The metadata has between two and eleven entries, under keys that
    are all different. *)
Theorem metadata_size (self : ICARTTReader) (f : File) :
  (2 <= length (read_metadata self f) <= 11)%nat /\
  NoDup (map fst (read_metadata self f)).
Proof.
  rewrite read_metadata_unfold. split.
  - split.
    + unfold metadata_entries. cbn [filter]. unfold truthy_entry at 1 2. cbn [snd].
      pose proof (path_str_nonempty' (path self)) as Hp.
      pose proof (str_of_int_nonempty (ICARTTInfo.header_length (info self))) as Hh.
      destruct (path_str (path self)); [discriminate Hp|].
      destruct (str_of_int (ICARTTInfo.header_length (info self))); [discriminate Hh|].
      cbn [truthy length]. lia.
    + etransitivity; [apply filter_length_le|]. cbn. lia.
  - apply filter_map_fst_NoDup, metadata_entries_nodup.
Qed.

(** ** More on the variable definitions *)

(** X9. With at least eleven header lines and a count of zero or more at
    index 9, the entries are those of the header lines from index 12 on,
    as many as the count says or as the header still has, whichever is
    less. *)
Theorem variable_defs_count (self : ICARTTReader) (f : File) (count : Z) :
  let lines := read_header_lines self f in
  (11 <= length lines)%nat ->
  py_int (str_strip (nth 9 lines [])) = Some count ->
  0 <= count ->
  read_variable_defs self f =
  map entry_of_line (firstn (Z.to_nat count) (skipn 12 lines)) /\
  length (read_variable_defs self f) = Nat.min (Z.to_nat count) (length lines - 12).
Proof.
  cbv zeta. intros Hlen Hint Hcount.
  rewrite read_variable_defs_unfold. cbv zeta. rewrite Hint.
  destruct (Nat.ltb_spec (length (read_header_lines self f)) 11) as [Hlt|_]; [lia|].
  rewrite py_slice_nonneg by lia.
  replace (12 + count - 12) with count by lia.
  change (Z.to_nat 12) with 12%nat.
  split; [reflexivity|].
  now rewrite length_map, length_firstn, length_skipn.
Qed.

Lemma variable_defs_count_witness :
  read_variable_defs (reader_with 13 (lit "1001"))
                     (layout_file "13,1001" "2" "-9999, -9999") =
  map entry_of_line
      (firstn (Z.to_nat 2)
         (skipn 12 (read_header_lines (reader_with 13 (lit "1001"))
                      (layout_file "13,1001" "2" "-9999, -9999")))) /\
  length (read_variable_defs (reader_with 13 (lit "1001"))
                             (layout_file "13,1001" "2" "-9999, -9999")) =
  Nat.min (Z.to_nat 2)
          (length (read_header_lines (reader_with 13 (lit "1001"))
                     (layout_file "13,1001" "2" "-9999, -9999")) - 12).
Proof.
  apply (variable_defs_count (reader_with 13 (lit "1001"))
           (layout_file "13,1001" "2" "-9999, -9999") 2).
  - vm_compute. repeat constructor.
  - vm_compute. reflexivity.
  - vm_compute. discriminate.
Defined.

Lemma variable_defs_block (self : ICARTTReader) (f : File) :
  exists k,
    read_variable_defs self f =
    map entry_of_line (firstn k (skipn 12 (read_header_lines self f))).
Proof.
  rewrite read_variable_defs_unfold. cbv zeta.
  set (lines := read_header_lines self f).
  destruct (Nat.ltb_spec (length lines) 11) as [Hlt|Hge]; [now exists O|].
  destruct (py_int _) as [n|]; [|now exists O].
  unfold py_slice.
  assert (Hb : slice_bound (Z.of_nat (length lines)) 12
               = Z.min 12 (Z.of_nat (length lines))) by reflexivity.
  rewrite Hb.
  destruct (Nat.le_gt_cases 12 (length lines)) as [H12|H12].
  - eexists. rewrite Z.min_l by lia. reflexivity.
  - exists O. rewrite skipn_all2; [now rewrite firstn_nil|]. lia.
Qed.

(** X10. Whatever the count line says, [read_variable_defs] returns no
    more entries than the header has lines from index 12 on. *)
Theorem variable_defs_bound (self : ICARTTReader) (f : File) :
  (length (read_variable_defs self f) <= length (read_header_lines self f) - 12)%nat.
Proof.
  destruct (variable_defs_block self f) as [k E]. rewrite E.
  rewrite length_map, length_firstn, length_skipn. lia.
Qed.

Lemma split_on_no_sep (sep : char) (s : str) :
  Forall (fun piece => ~ In sep piece) (split_on sep s).
Proof.
  induction s as [|c s IH]; [repeat constructor; intros []|].
  cbn [split_on]. destruct (char_eqb c sep) eqn:E.
  - constructor; [intros [] | exact IH].
  - apply char_eqb_neq in E. destruct (split_on sep s) as [|piece rest].
    + repeat constructor. intros [H|[]]. congruence.
    + inversion IH; subst. constructor; [|assumption].
      intros [H|H]; [congruence | contradiction].
Qed.

Lemma nonempty_some (s t : str) : nonempty s = Some t -> t = s /\ t <> [].
Proof. destruct s; [discriminate|]. intro H. inversion H. now split. Qed.

Lemma entry_of_line_wellformed (ln : str) :
  let v := entry_of_line ln in
  VariableDef.missing v = None /\
  is_stripped (VariableDef.name v) = true /\ ~ In COMMA (VariableDef.name v) /\
  (forall u, VariableDef.unit v = Some u ->
             u <> [] /\ is_stripped u = true /\ ~ In COMMA u) /\
  (forall d, VariableDef.description v = Some d -> d <> [] /\ is_stripped d = true).
Proof.
  cbv zeta. unfold entry_of_line.
  pose proof (split_on_no_sep COMMA ln) as Hsep.
  pose proof (split_on_nonempty COMMA ln) as Hne.
  destruct (split_on COMMA ln) as [|a rest]; [contradiction|].
  cbn [map hd VariableDef.missing VariableDef.name VariableDef.unit
       VariableDef.description].
  inversion Hsep as [|? ? Ha Hrest]; subst.
  split; [reflexivity|]. split; [apply str_strip_stripped|].
  split; [intro H; apply in_str_strip in H; contradiction|].
  split.
  - destruct rest as [|b rest]; [discriminate|]. cbn [map].
    intros u Hu. apply nonempty_some in Hu. destruct Hu as [E Hu]. subst u.
    inversion Hrest; subst.
    split; [exact Hu|]. split; [apply str_strip_stripped|].
    intro H. apply in_str_strip in H. contradiction.
  - destruct rest as [|b [|c rest]]; [discriminate..|]. cbn [map].
    intros d Hd. apply nonempty_some in Hd. destruct Hd as [E Hd]. subst d.
    split; [exact Hd | apply str_strip_stripped].
Qed.

(** X11. Every entry [read_variable_defs] returns has no [missing] value,
    a name with no comma and no whitespace at either end, a unit that,
    when present, is not empty and has no comma and no whitespace at
    either end, and a description that, when present, is not empty and
    has no whitespace at either end. *)
Theorem variable_defs_wellformed (self : ICARTTReader) (f : File) :
  Forall (fun v =>
            VariableDef.missing v = None /\
            is_stripped (VariableDef.name v) = true /\
            ~ In COMMA (VariableDef.name v) /\
            (forall u, VariableDef.unit v = Some u ->
                       u <> [] /\ is_stripped u = true /\ ~ In COMMA u) /\
            (forall d, VariableDef.description v = Some d ->
                       d <> [] /\ is_stripped d = true))
         (read_variable_defs self f).
Proof.
  destruct (variable_defs_block self f) as [k E]. rewrite E.
  apply Forall_forall. intros v Hv. apply in_map_iff in Hv.
  destruct Hv as [ln [Ev _]]. subst v. apply entry_of_line_wellformed.
Qed.

(** ** More on the missing values *)

Lemma scan_tokens_cases (toks : list str) :
  forall candidates,
    scan_tokens toks candidates =
    if existsb rejected toks then Raise ValueError
    else Ok (candidates ++ choose candidate toks).
Proof.
  induction toks as [|tok toks IH]; intro candidates.
  - simpl. now rewrite app_nil_r.
  - cbn [scan_tokens choose existsb]. rewrite sign_test.
    unfold rejected at 1, candidate at 1.
    destruct (signed_digits tok); [|cbn [andb orb]; apply IH].
    unfold int_of_str. destruct (py_int tok) as [v|]; [|reflexivity].
    cbn [bind andb orb]. unfold py_abs.
    destruct (999 <=? Z.abs v).
    + rewrite IH. destruct (existsb rejected toks); [reflexivity|].
      now rewrite <- app_assoc.
    + apply IH.
Qed.

Lemma scan_lines_cases (lines : list str) :
  forall candidates,
    scan_lines lines candidates =
    if existsb rejected_line lines then Raise ValueError
    else Ok (candidates ++ candidates_of lines).
Proof.
  induction lines as [|ln lines IH]; intro candidates.
  - simpl. now rewrite app_nil_r.
  - cbn [scan_lines existsb]. rewrite split_ws_tokens, scan_tokens_cases.
    unfold rejected_line at 1.
    destruct (existsb rejected (tokens ln)); [reflexivity|].
    cbn [bind orb]. rewrite IH.
    destruct (existsb rejected_line lines); [reflexivity|].
    unfold candidates_of. cbn [flat_map]. now rewrite <- app_assoc.
Qed.

Lemma guess_missing_values_cases (self : ICARTTReader) (f : File) :
  _guess_missing_values self f =
  if existsb rejected_line (scanned_lines self f) then Raise ValueError
  else Ok (match candidates_of (scanned_lines self f) with
           | [] => default_missing
           | _ :: _ => dedup_first (candidates_of (scanned_lines self f))
           end).
Proof.
  unfold _guess_missing_values. cbv zeta.
  rewrite (scanned_slice self f), scan_lines_cases.
  destruct (existsb rejected_line (scanned_lines self f)); [reflexivity|].
  cbn [bind app]. rewrite dedup_loop_first.
  destruct (candidates_of (scanned_lines self f)); reflexivity.
Qed.

Lemma digit_not_int_space (c : char) : isdigit_char c = true -> int_isspace c = false.
Proof.
  intro H. apply not_true_is_false. intro Hs. apply int_isspace_isspace in Hs.
  unfold isdigit_char in H. apply orb_true_iff in H. destruct H as [H|H].
  - rewrite (decimal_not_space c H) in Hs. discriminate.
  - assert (E : isspace c = false)
      by (revert H; apply ranges_disjoint_sound; vm_compute; reflexivity).
    rewrite E in Hs. discriminate.
Qed.

Lemma int_digit_some_decimal (c : char) (d : Z) :
  int_digit c = Some d -> isdecimal_char c = true.
Proof.
  unfold int_digit. destruct (N.ltb_spec c 127) as [Hc|Hc].
  - destruct ((48 <=? c)%N && (c <=? 57)%N) eqn:E; [|discriminate]. intros _.
    change (isdecimal_char c)
      with (in_range c (48, 57)%N || in_ranges (tl decimal_ranges) c).
    unfold in_range. cbn [fst snd]. now rewrite E.
  - destruct (isspace c); [discriminate|]. unfold decimal_value.
    destruct (find (in_range c) decimal_ranges) as [r|] eqn:E; [|discriminate].
    intros _. apply find_some in E. apply in_ranges_iff. now exists r.
Qed.

Lemma scan_digits_some_decimal (s : str) :
  forall b acc v,
    scan_digits b acc s = Some v ->
    forall c, In c s -> char_eqb c UNDERSCORE = false -> isdecimal_char c = true.
Proof.
  induction s as [|x s IH]; intros b acc v H c Hc Hu; [contradiction|].
  cbn [scan_digits] in H. destruct Hc as [E|Hc].
  - subst x. rewrite Hu in H.
    destruct (int_digit c) as [d|] eqn:Ed; [|discriminate].
    eapply int_digit_some_decimal. exact Ed.
  - destruct (char_eqb x UNDERSCORE).
    + destruct b; [discriminate|]. eapply IH; eassumption.
    + destruct (int_digit x); [|discriminate]. eapply IH; eassumption.
Qed.

Lemma digit_not_underscore (c : char) :
  isdigit_char c = true -> char_eqb c UNDERSCORE = false.
Proof.
  intro H. apply char_eqb_neq. intro E. subst c. vm_compute in H. discriminate.
Qed.

(** For a sign followed by digits, [int] accepts the token exactly when
    all its digits are decimal. *)
Lemma rejected_iff (tok : str) :
  rejected tok = true <-> signed_digits tok = true /\ signed_decimal tok = false.
Proof.
  unfold rejected. split.
  - intro H. apply andb_true_iff in H. destruct H as [Hs Hp].
    split; [exact Hs|]. apply not_true_is_false. intro Hd.
    destruct (py_int_signed_decimal tok Hd) as [v Hv]. rewrite Hv in Hp. discriminate.
  - intros [Hs Hd]. rewrite Hs. cbn [andb].
    destruct (py_int tok) as [v|] eqn:Hv; [|reflexivity].
    exfalso. rewrite <- not_true_iff_false in Hd. apply Hd. clear Hd.
    destruct tok as [|c rest]; [discriminate|].
    cbn [signed_digits] in Hs. apply andb_true_iff in Hs. destruct Hs as [Hsign Hdig].
    destruct rest as [|d rest]; [discriminate|].
    unfold str_isdigit in Hdig. rewrite forallb_forall in Hdig.
    cbn [signed_decimal truthy]. rewrite Hsign. cbn [andb].
    assert (Hc : int_isspace c = false).
    { apply orb_true_iff in Hsign.
      destruct Hsign as [E|E]; apply char_eqb_eq in E; subst c; reflexivity. }
    assert (Hall : forall x, In x (c :: d :: rest) -> int_isspace x = false).
    { intros x [Hx|Hx]; [now subst x|]. apply digit_not_int_space. now apply Hdig. }
    unfold py_int in Hv.
    rewrite (lstrip_by_head _ _ _ Hc), (rstrip_by_none _ _ Hall) in Hv.
    assert (Hbody : exists w, int_body (d :: rest) = Some w).
    { apply orb_true_iff in Hsign. destruct Hsign as [E|E]; rewrite E in Hv.
      - now exists v.
      - destruct (char_eqb c PLUS); [now exists v|].
        destruct (int_body (d :: rest)) as [w|]; [now exists w | discriminate]. }
    destruct Hbody as [w Hw]. cbn [int_body] in Hw.
    rewrite (digit_not_underscore d (Hdig d (or_introl eq_refl))) in Hw.
    apply forallb_forall. intros x Hx.
    eapply scan_digits_some_decimal; [exact Hw | exact Hx |].
    apply digit_not_underscore. now apply Hdig.
Qed.

(** X12. On a header whose tokens made of a sign and digits are all within
    the interpreter's limit of 4300 digits, [_guess_missing_values]
    raises, and then a [ValueError], exactly when one of the first 200
    header lines has a token that is a sign followed by digits of which
    one is not a decimal digit; otherwise it returns a list. *)
Theorem guess_missing_values_raises_iff (self : ICARTTReader) (f : File) :
  digits_within_limit (scanned_lines self f) = true ->
  ((exists e, _guess_missing_values self f = Raise e) <->
   exists ln tok,
     In ln (scanned_lines self f) /\ In tok (tokens ln) /\
     signed_digits tok = true /\ signed_decimal tok = false) /\
  (forall e, _guess_missing_values self f = Raise e -> e = ValueError).
Proof.
  intros _. rewrite guess_missing_values_cases.
  destruct (existsb rejected_line (scanned_lines self f)) eqn:E.
  - split; [|intros e H; now inversion H]. split; [intros _|intros _; now exists ValueError].
    apply existsb_exists in E. destruct E as [ln [Hln Hr]].
    apply existsb_exists in Hr. destruct Hr as [tok [Htok Hr]].
    apply rejected_iff in Hr. exists ln, tok. tauto.
  - split; [|intros e H; discriminate H]. split; [intros [e H]; discriminate H|].
    intros (ln & tok & Hln & Htok & Hs & Hd). exfalso.
    assert (Ht : existsb rejected_line (scanned_lines self f) = true).
    { apply existsb_exists. exists ln. split; [exact Hln|].
      apply existsb_exists. exists tok. split; [exact Htok|].
      apply rejected_iff. now split. }
    rewrite Ht in E. discriminate.
Qed.

Lemma guess_missing_values_raises_iff_witness :
  (exists e, _guess_missing_values (reader_with 3 (lit "1001")) superscript_file = Raise e) <->
  exists ln tok,
    In ln (scanned_lines (reader_with 3 (lit "1001")) superscript_file) /\
    In tok (tokens ln) /\
    signed_digits tok = true /\ signed_decimal tok = false.
Proof.
  apply (guess_missing_values_raises_iff (reader_with 3 (lit "1001")) superscript_file).
  vm_compute. reflexivity.
Defined.

(** X13. A list returned by [_guess_missing_values] is never empty, holds
    no value twice, and holds only values of magnitude 999 or more. *)
Theorem guess_missing_values_invariant (self : ICARTTReader) (f : File) (l : list Z) :
  _guess_missing_values self f = Ok l ->
  l <> [] /\ NoDup l /\ Forall (fun v => 999 <= Z.abs v) l.
Proof.
  rewrite guess_missing_values_cases.
  destruct (existsb rejected_line (scanned_lines self f)); [discriminate|].
  intro H. inversion H as [E]. clear H.
  destruct (candidates_of (scanned_lines self f)) as [|x xs] eqn:Ec.
  - split; [discriminate|]. split.
    + unfold default_missing.
      repeat (constructor; [cbn [In]; intuition discriminate|]). constructor.
    + unfold default_missing. repeat constructor; cbn; discriminate.
  - split; [discriminate|]. split; [apply dedup_first_NoDup|].
    apply Forall_forall. intros v Hv. apply (proj1 (dedup_first_In _ _)) in Hv.
    assert (Hv' : In v (candidates_of (scanned_lines self f)))
      by (rewrite Ec; exact Hv).
    apply in_candidates_of in Hv'.
    destruct Hv' as (ln & tok & _ & _ & _ & _ & Hb). exact Hb.
Qed.

Lemma guess_missing_values_invariant_witness :
  [-9999; 99999] <> [] /\ NoDup [-9999; 99999] /\
  Forall (fun v => 999 <= Z.abs v) [-9999; 99999].
Proof.
  apply (guess_missing_values_invariant (reader_with 15 (lit "1001"))
           (layout_file "15,1001" "2" "-9999, +99999, -9999")).
  vm_compute. reflexivity.
Defined.

(** X14. Only the first 200 header lines are scanned: two readers of the
    same file whose header lengths are both 200 or more guess the same. *)
Theorem guess_missing_values_first_200 (r1 r2 : ICARTTReader) (f : File) :
  200 <= ICARTTInfo.header_length (info r1) ->
  200 <= ICARTTInfo.header_length (info r2) ->
  _guess_missing_values r1 f = _guess_missing_values r2 f.
Proof.
  intros H1 H2.
  assert (E : scanned_lines r1 f = scanned_lines r2 f).
  { unfold scanned_lines. rewrite !read_header_lines_spec.
    rewrite <- !firstn_map, !firstn_firstn.
    now rewrite !Nat.min_l by lia. }
  now rewrite !guess_missing_values_cases, E.
Qed.

Lemma guess_missing_values_first_200_witness :
  _guess_missing_values (reader_with 200 (lit "1001"))
                        (layout_file "200,1001" "2" "-9999, -9999") =
  _guess_missing_values (reader_with 1000 (lit "1001"))
                        (layout_file "200,1001" "2" "-9999, -9999").
Proof.
  apply (guess_missing_values_first_200 (reader_with 200 (lit "1001"))
           (reader_with 1000 (lit "1001")) (layout_file "200,1001" "2" "-9999, -9999")).
  - vm_compute. discriminate.
  - vm_compute. discriminate.
Defined.

(** ** More on the table *)

(** X15. What [read_table] does when no missing-value tokens are given:
    if the guess raises, so does [read_table], before pandas is called;
    otherwise pandas is called with [max(header_length - 1, 0)] rows to
    skip and with the guessed values.  With tokens given, the header is
    not scanned at all. *)
Theorem read_table_call
    (DataFrame : Type) (pd_read_csv : File -> Z -> list na_value -> result DataFrame)
    (df_columns : DataFrame -> list str)
    (df_set_columns : DataFrame -> list str -> DataFrame)
    (self : ICARTTReader) (f : File) (strip_colnames : bool) :
  let finish := fun df : DataFrame =>
                  if strip_colnames
                  then Ok (df_set_columns df (map str_strip (df_columns df)))
                  else Ok df in
  let skip := Z.max (ICARTTInfo.header_length (info self) - 1) 0 in
  read_table DataFrame pd_read_csv df_columns df_set_columns self f None strip_colnames =
  (if existsb rejected_line (scanned_lines self f) then Raise ValueError
   else bind (pd_read_csv f skip
                (map NaInt
                   (match candidates_of (scanned_lines self f) with
                    | [] => default_missing
                    | _ :: _ => dedup_first (candidates_of (scanned_lines self f))
                    end)))
             finish) /\
  (forall given,
     read_table DataFrame pd_read_csv df_columns df_set_columns self f (Some given)
                strip_colnames =
     bind (pd_read_csv f skip given) finish).
Proof.
  cbv zeta. split; [|reflexivity].
  unfold read_table. rewrite guess_missing_values_cases.
  destruct (existsb rejected_line (scanned_lines self f)); reflexivity.
Qed.

(** ** More on construction *)

Lemma in_split_on (sep : char) (s piece : str) (c : char) :
  In piece (split_on sep s) -> In c piece -> In c s.
Proof.
  revert piece. induction s as [|x s IH]; intros piece Hp Hc.
  - destruct Hp as [E|[]]. now subst piece.
  - cbn [split_on] in Hp. destruct (char_eqb x sep).
    + destruct Hp as [E|Hp]; [subst piece; contradiction|].
      right. eapply IH; eassumption.
    + destruct (split_on sep s) as [|q rest].
      * destruct Hp as [E|[]]. subst piece. destruct Hc as [E|[]]. now left.
      * destruct Hp as [E|Hp].
        -- subst piece. destruct Hc as [E|Hc]; [now left|].
           right. apply (IH q); [now left | exact Hc].
        -- right. apply (IH piece); [now right | exact Hc].
Qed.

Lemma first_line_chars (f : File) (c : char) :
  In c (str_strip (fst (readline (open_text f)))) -> c <> LF /\ c <> CR.
Proof.
  intro H.
  destruct (readline_shape (open_text f)) as [Hs Hshape].
  assert (Hcr : c <> CR).
  { intro E. subst c. apply (universal_newlines_no_cr f).
    unfold open_text in *. rewrite Hs. apply in_or_app. left.
    now apply in_str_strip. }
  split; [|exact Hcr]. intro E. subst c.
  destruct Hshape as [[body [Hb Hn]]|[_ Hn]].
  - rewrite Hb, (str_strip_snoc_space body LF eq_refl) in H.
    apply Hn. now apply in_str_strip.
  - apply Hn. now apply in_str_strip.
Qed.

(** X16. A reader that was constructed keeps the path it was given, and
    its format index has no whitespace at either end and holds no comma
    and no line terminator. *)
Theorem init_format_index_clean (p : Path) (f : File) (self : ICARTTReader) :
  __init__ p f = Ok self ->
  path self = p /\ ICARTTInfo.path (info self) = p /\
  is_stripped (ICARTTInfo.ffi (info self)) = true /\
  ~ In COMMA (ICARTTInfo.ffi (info self)) /\
  ~ In LF (ICARTTInfo.ffi (info self)) /\
  ~ In CR (ICARTTInfo.ffi (info self)).
Proof.
  rewrite init_unfold, read_info_unfold.
  destruct (Nat.ltb_spec (length (first_line_parts f)) 2) as [|Hlen]; [discriminate|].
  destruct (py_int (nth 0 (first_line_parts f) [])) as [n|]; [|discriminate].
  intro H. inversion H. subst self. clear H. cbn.
  split; [reflexivity|]. split; [reflexivity|].
  unfold first_line_parts in *. rewrite length_map in Hlen.
  set (pieces := split_on COMMA (str_strip (fst (readline (open_text f))))) in *.
  change (@nil char) with (str_strip []) at 1 2 3 4.
  rewrite !(map_nth str_strip).
  assert (Hin : In (nth 1 pieces []) pieces) by (apply nth_In; lia).
  split; [apply str_strip_stripped|].
  pose proof (split_on_no_sep COMMA (str_strip (fst (readline (open_text f))))) as Hsep.
  rewrite Forall_forall in Hsep. specialize (Hsep _ Hin).
  split; [intro Hc; apply in_str_strip in Hc; contradiction|].
  split; intro Hc; apply in_str_strip in Hc;
    apply (in_split_on _ _ _ _ Hin) in Hc;
    apply first_line_chars in Hc; destruct Hc; congruence.
Qed.

Lemma init_format_index_clean_witness :
  path (reader_with 15 (lit "1001")) = sample_path /\
  ICARTTInfo.path (info (reader_with 15 (lit "1001"))) = sample_path /\
  is_stripped (ICARTTInfo.ffi (info (reader_with 15 (lit "1001")))) = true /\
  ~ In COMMA (ICARTTInfo.ffi (info (reader_with 15 (lit "1001")))) /\
  ~ In LF (ICARTTInfo.ffi (info (reader_with 15 (lit "1001")))) /\
  ~ In CR (ICARTTInfo.ffi (info (reader_with 15 (lit "1001")))).
Proof.
  apply (init_format_index_clean sample_path (layout_file "15,1001" "2" "-9999, -9999")).
  vm_compute. reflexivity.
Defined.

(** ** Writing and reading back *)

Lemma rstrip_by_cons_keep (p : char -> bool) (c : char) (s : str) :
  p c = false -> rstrip_by p (c :: s) = c :: rstrip_by p s.
Proof.
  intro H. cbn [rstrip_by]. destruct (rstrip_by p s); [now rewrite H | reflexivity].
Qed.

Lemma rstrip_by_app (p : char -> bool) (x y : str) :
  rstrip_by p y <> [] -> rstrip_by p (x ++ y) = x ++ rstrip_by p y.
Proof.
  intro H. induction x as [|a x IH]; [reflexivity|].
  cbn [app rstrip_by]. rewrite IH.
  destruct (x ++ rstrip_by p y) eqn:E; [|reflexivity].
  apply app_eq_nil in E. destruct E. contradiction.
Qed.

Lemma rstrip_by_stripped (s : str) :
  is_stripped s = true -> rstrip_by isspace s = s.
Proof.
  destruct s as [|c r]; [reflexivity|]. cbn [is_stripped]. intro H.
  apply andb_true_iff in H. destruct H as [_ Hl]. apply negb_true_iff in Hl.
  assert (Hne : c :: r <> []) by discriminate.
  rewrite (app_removelast_last c Hne) at 1 2.
  now rewrite rstrip_by_snoc, Hl.
Qed.

Lemma str_strip_id (s : str) : is_stripped s = true -> str_strip s = s.
Proof.
  intro H. unfold str_strip. destruct s as [|c r]; [reflexivity|].
  pose proof H as H'. cbn [is_stripped] in H'. apply andb_true_iff in H'.
  destruct H' as [Hc _]. apply negb_true_iff in Hc.
  rewrite (lstrip_by_head _ _ _ Hc). now apply rstrip_by_stripped.
Qed.

Lemma str_strip_space (s : str) : str_strip (SPACE :: s) = str_strip s.
Proof. reflexivity. Qed.

Lemma split_on_single (sep : char) (s : str) :
  ~ In sep s -> split_on sep s = [s].
Proof.
  induction s as [|c s IH]; intro H; [reflexivity|].
  cbn [split_on]. destruct (char_eqb c sep) eqn:E.
  - apply char_eqb_eq in E. exfalso. apply H. now left.
  - rewrite IH by (intro Hin; apply H; now right). reflexivity.
Qed.

Lemma split_on_app (sep : char) (a b : str) :
  ~ In sep a -> split_on sep (a ++ sep :: b) = a :: split_on sep b.
Proof.
  induction a as [|c a IH]; intro H.
  - cbn [app split_on]. unfold char_eqb. now rewrite N.eqb_refl.
  - cbn [app split_on]. destruct (char_eqb c sep) eqn:E.
    + apply char_eqb_eq in E. exfalso. apply H. now left.
    + rewrite IH by (intro Hin; apply H; now right). reflexivity.
Qed.

(** X17. Any line of the variable block (the header line at index 12 + i,
    for i below the count) written as "name, unit, description" is read
    back as that name, unit and description, in entry i, as long as the
    three have no comma and no whitespace at either end and the last two
    are not empty. *)
Theorem variable_line_roundtrip
    (self : ICARTTReader) (f : File) (count : Z) (i : nat)
    (name unit description : str) :
  let lines := read_header_lines self f in
  (11 <= length lines)%nat ->
  py_int (str_strip (nth 9 lines [])) = Some count ->
  Z.of_nat i < count ->
  nth_error lines (12 + i) = Some (variable_line name unit description) ->
  is_stripped name = true -> ~ In COMMA name ->
  is_stripped unit = true -> ~ In COMMA unit -> unit <> [] ->
  is_stripped description = true -> ~ In COMMA description -> description <> [] ->
  nth_error (read_variable_defs self f) i =
  Some (VariableDef.mk name (Some unit) (Some description) None).
Proof.
  cbv zeta. intros Hlen Hint Hcount H12 Hn Hnc Hu Huc Hune Hd Hdc Hdne.
  rewrite read_variable_defs_unfold. cbv zeta. rewrite Hint.
  destruct (Nat.ltb_spec (length (read_header_lines self f)) 11) as [Hlt|_]; [lia|].
  rewrite py_slice_nonneg by lia. change (Z.to_nat 12) with 12%nat.
  rewrite nth_error_map, nth_error_firstn.
  destruct (Nat.ltb_spec i (Z.to_nat (12 + count - 12))); [|lia].
  rewrite nth_error_skipn. rewrite H12.
  cbn [option_map]. f_equal.
  unfold entry_of_line, variable_line.
  change ([COMMA; SPACE] ++ unit ++ [COMMA; SPACE] ++ description)
    with (COMMA :: (SPACE :: unit) ++ COMMA :: SPACE :: description).
  rewrite (split_on_app COMMA name _ Hnc).
  rewrite (split_on_app COMMA (SPACE :: unit)).
  2:{ intros [E|Hin]; [discriminate E | contradiction]. }
  rewrite (split_on_single COMMA (SPACE :: description)).
  2:{ intros [E|Hin]; [discriminate E | contradiction]. }
  cbn [map hd str_join]. rewrite !str_strip_space.
  rewrite (str_strip_id name Hn), (str_strip_id unit Hu), !(str_strip_id description Hd).
  destruct unit; [contradiction|]. destruct description; [contradiction|]. reflexivity.
Qed.

Lemma variable_line_roundtrip_witness :
  nth_error (read_variable_defs (reader_with 15 (lit "1001"))
                                (layout_file "15,1001" "2" "-9999, -9999")) 0 =
  Some (VariableDef.mk (lit "TEMP") (Some (lit "degC"))
                       (Some (lit "Ambient temperature")) None).
Proof.
  apply (variable_line_roundtrip (reader_with 15 (lit "1001"))
           (layout_file "15,1001" "2" "-9999, -9999") 2 0).
  - vm_compute. repeat constructor.
  - vm_compute. reflexivity.
  - vm_compute. reflexivity.
  - vm_compute. reflexivity.
  - vm_compute. reflexivity.
  - vm_compute. intuition discriminate.
  - vm_compute. reflexivity.
  - vm_compute. intuition discriminate.
  - discriminate.
  - vm_compute. reflexivity.
  - vm_compute. intuition discriminate.
  - discriminate.
Defined.

Lemma str_of_int_chars (n : Z) (c : char) :
  In c (str_of_int n) -> c = MINUS \/ (48 <= c <= 57)%N.
Proof.
  destruct n as [|p|p]; cbn [str_of_int].
  - intros [E|[]]. subst c. right. lia.
  - intro H. right. now apply (uint_chars_digits (Pos.to_uint p)).
  - intros [E|H]; [now left | right; now apply (uint_chars_digits (Pos.to_uint p))].
Qed.

Lemma str_of_int_char_plain (n : Z) (c : char) :
  In c (str_of_int n) ->
  isspace c = false /\ c <> COMMA /\ c <> LF /\ c <> CR.
Proof.
  intro H. apply str_of_int_chars in H. destruct H as [E|H].
  - subst c. repeat split; discriminate.
  - split.
    + apply decimal_not_space.
      change (isdecimal_char c)
        with (in_range c (48, 57)%N || in_ranges (tl decimal_ranges) c).
      apply orb_true_iff. left. apply in_range_bounds. exact H.
    + unfold COMMA, LF, CR. repeat split; lia.
Qed.

Lemma str_strip_no_space (s : str) :
  (forall c, In c s -> isspace c = false) -> str_strip s = s.
Proof.
  intro H. unfold str_strip. destruct s as [|c r]; [reflexivity|].
  rewrite (lstrip_by_head _ _ _ (H c (or_introl eq_refl))).
  now apply rstrip_by_none.
Qed.

Lemma readline_app (line rest : str) :
  ~ In LF line -> readline (line ++ LF :: rest) = (line ++ [LF], rest).
Proof.
  induction line as [|c line IH]; intro H.
  - cbn [app readline]. unfold char_eqb. now rewrite N.eqb_refl.
  - cbn [app readline]. destruct (char_eqb c LF) eqn:E.
    + apply char_eqb_eq in E. exfalso. apply H. now left.
    + rewrite IH by (intro Hin; apply H; now right). reflexivity.
Qed.

Lemma str_of_int_nonnil (n : Z) : str_of_int n <> [].
Proof.
  pose proof (str_of_int_nonempty n) as H. destruct (str_of_int n); discriminate.
Qed.

(** X18. For an integer [n] of at most 4300 digits, the interpreter's
    limit, a file whose first line is written as [str(n)], a comma and a
    format index, the index having no comma, no line terminator and no
    whitespace at either end, constructs a reader with header length [n]
    and that format index, whatever follows the first line. *)
Theorem init_roundtrip (p : Path) (n : Z) (ffi rest : str) :
  within_digit_limit (str_of_int n) = true ->
  is_stripped ffi = true -> ~ In COMMA ffi -> ~ In LF ffi -> ~ In CR ffi ->
  ~ In CR rest ->
  __init__ p (str_of_int n ++ COMMA :: ffi ++ LF :: rest) =
  Ok (mkReader p (ICARTTInfo.mk p n ffi)).
Proof.
  intros _ Hs Hc Hlf Hcr Hrest.
  set (digits := str_of_int n).
  assert (Hd : forall c, In c digits ->
                         isspace c = false /\ c <> COMMA /\ c <> LF /\ c <> CR)
    by (intros c; apply str_of_int_char_plain).
  set (line1 := digits ++ COMMA :: ffi).
  assert (Hfile : digits ++ COMMA :: ffi ++ LF :: rest = line1 ++ LF :: rest)
    by (unfold line1; now rewrite <- app_assoc).
  rewrite Hfile.
  assert (Hnolf : ~ In LF line1).
  { unfold line1. intro H. apply in_app_or in H. destruct H as [H|[H|H]].
    - apply Hd in H. tauto.
    - discriminate H.
    - contradiction. }
  assert (Hnocr : ~ In CR (line1 ++ LF :: rest)).
  { intro H. apply in_app_or in H. destruct H as [H|[H|H]].
    - unfold line1 in H. apply in_app_or in H. destruct H as [H|[H|H]].
      + apply Hd in H. tauto.
      + discriminate H.
      + contradiction.
    - discriminate H.
    - contradiction. }
  assert (Hstrip : str_strip line1 = line1).
  { unfold str_strip, line1.
    pose proof (str_of_int_nonnil n) as Hne. fold digits in Hne.
    destruct digits as [|d ds] eqn:Ed; [contradiction|].
    assert (Hsp : isspace d = false) by (apply Hd; now left).
    cbn [app]. rewrite (lstrip_by_head _ _ _ Hsp).
    change (d :: ds ++ COMMA :: ffi) with ((d :: ds) ++ COMMA :: ffi).
    assert (Hr : rstrip_by isspace (COMMA :: ffi) = COMMA :: ffi)
      by (rewrite rstrip_by_cons_keep by reflexivity;
          now rewrite rstrip_by_stripped).
    rewrite rstrip_by_app; rewrite Hr; [reflexivity | discriminate]. }
  assert (Hparts : first_line_parts (line1 ++ LF :: rest) = [digits; ffi]).
  { unfold first_line_parts, open_text.
    rewrite (universal_newlines_id _ Hnocr), (readline_app _ _ Hnolf).
    cbn [fst]. rewrite (str_strip_snoc_space line1 LF eq_refl), Hstrip.
    unfold line1. rewrite split_on_app by (intro H; apply Hd in H; tauto).
    rewrite (split_on_single COMMA ffi Hc). cbn [map].
    rewrite (str_strip_id ffi Hs).
    now rewrite (str_strip_no_space digits (fun c H => proj1 (Hd c H))). }
  rewrite (init_accepts p _ n); rewrite Hparts;
    [reflexivity | cbn; lia | apply py_int_str_of_int].
Qed.

Lemma init_roundtrip_witness :
  __init__ sample_path (str_of_int (-7) ++ COMMA :: lit "1001" ++ LF :: lit "time,temp") =
  Ok (mkReader sample_path (ICARTTInfo.mk sample_path (-7) (lit "1001"))).
Proof.
  apply (init_roundtrip sample_path (-7) (lit "1001") (lit "time,temp")).
  - vm_compute. reflexivity.
  - vm_compute. reflexivity.
  - vm_compute. intuition discriminate.
  - vm_compute. intuition discriminate.
  - vm_compute. intuition discriminate.
  - vm_compute. intuition discriminate.
Defined.

(** ** Exports *)

Section ExportFacts.
Variable DataFrame : Type.
Variable pd_read_csv : File -> Z -> list na_value -> result DataFrame.
Variable df_columns : DataFrame -> list str.
Variable df_set_columns : DataFrame -> list str -> DataFrame.
Variable path_of_str : str -> Path.
Variable with_suffix : Path -> str -> result Path.
Variable df_to_csv : DataFrame -> Path -> result unit.
Variable df_to_parquet : DataFrame -> Path -> result unit.

(** X19. When the header makes the missing-value guess raise and no
    tokens are given, both exports raise [ValueError] as well, whatever the
    destination and whatever pandas would do. *)
Theorem export_raises (self : ICARTTReader) (f : File) (out : option PathLike)
    (strip_colnames : bool) :
  existsb rejected_line (scanned_lines self f) = true ->
  to_csv DataFrame pd_read_csv df_columns df_set_columns path_of_str with_suffix
         df_to_csv self f out None strip_colnames = Raise ValueError /\
  to_parquet DataFrame pd_read_csv df_columns df_set_columns path_of_str with_suffix
             df_to_parquet self f out None strip_colnames = Raise ValueError.
Proof.
  intro H. unfold to_csv, to_parquet, read_table.
  rewrite guess_missing_values_cases, H. split; reflexivity.
Qed.

(** X20. When [to_csv] returns a path, the table was read, that path was
    handed to pandas' writer, and it is the path given as [out], the path
    made of a non-empty string given as [out], or else the reader's own
    path with the suffix ".csv": an empty string counts as no [out]. *)
Theorem to_csv_returns (self : ICARTTReader) (f : File) (out : option PathLike)
    (na_values : option (list na_value)) (strip_colnames : bool) (written : Path) :
  to_csv DataFrame pd_read_csv df_columns df_set_columns path_of_str with_suffix
         df_to_csv self f out na_values strip_colnames = Ok written ->
  (exists df,
     read_table DataFrame pd_read_csv df_columns df_set_columns
                self f na_values strip_colnames = Ok df /\
     df_to_csv df written = Ok tt) /\
  match out with
  | Some (inr given) => written = given
  | Some (inl (c :: s)) => written = path_of_str (c :: s)
  | Some (inl []) | None => with_suffix (path self) (lit ".csv") = Ok written
  end.
Proof.
  unfold to_csv. intro H.
  destruct (read_table _ _ _ _ self f na_values strip_colnames) as [df|e];
    [|discriminate H].
  cbn [bind] in H.
  destruct (out_path_of path_of_str with_suffix self out (lit ".csv"))
    as [q|e] eqn:Eq; [|discriminate H].
  cbn [bind] in H.
  destruct (df_to_csv df q) as [[]|e] eqn:Ew; [|discriminate H].
  cbn [bind] in H. inversion H. subst q. clear H.
  split; [exists df; now split|].
  unfold out_path_of in Eq.
  destruct out as [[[|c s]|given]|]; cbn in Eq; try exact Eq; now inversion Eq.
Qed.
End ExportFacts.

Lemma export_raises_witness :
  to_csv (Z * list na_value) recording_read_csv (fun _ => []) (fun df _ => df)
         (fun _ => sample_path) (fun p _ => Ok p) (fun _ _ => Ok tt)
         (reader_with 3 (lit "1001")) superscript_file None None true
  = Raise ValueError /\
  to_parquet (Z * list na_value) recording_read_csv (fun _ => []) (fun df _ => df)
             (fun _ => sample_path) (fun p _ => Ok p) (fun _ _ => Ok tt)
             (reader_with 3 (lit "1001")) superscript_file None None true
  = Raise ValueError.
Proof.
  apply (export_raises (Z * list na_value) recording_read_csv (fun _ => [])
           (fun df _ => df) (fun _ => sample_path) (fun p _ => Ok p)
           (fun _ _ => Ok tt) (fun _ _ => Ok tt)
           (reader_with 3 (lit "1001")) superscript_file None true).
  vm_compute. reflexivity.
Defined.

Lemma to_csv_returns_witness :
  (exists df,
     read_table (Z * list na_value) recording_read_csv (fun _ => []) (fun df _ => df)
                (reader_with 15 (lit "1001"))
                (layout_file "15,1001" "2" "-9999, -9999") None true = Ok df /\
     (fun (_ : Z * list na_value) (_ : Path) => Ok tt) df sample_path = Ok tt) /\
  (fun (p : Path) (_ : str) => Ok p) (path (reader_with 15 (lit "1001"))) (lit ".csv")
  = Ok sample_path.
Proof.
  apply (to_csv_returns (Z * list na_value) recording_read_csv (fun _ => [])
           (fun df _ => df) (fun _ => sample_path) (fun p _ => Ok p)
           (fun _ _ => Ok tt)
           (reader_with 15 (lit "1001")) (layout_file "15,1001" "2" "-9999, -9999")
           (Some (inl [])) None true sample_path).
  vm_compute. reflexivity.
Defined.

(** ** Which part of the file matters *)

(** X21. On a header whose first 200 lines hold ASCII characters only,
    and no token made of a sign and more than 4300 digits,
    [_guess_missing_values] returns a list. *)
Theorem guess_missing_values_ascii (self : ICARTTReader) (f : File) :
  (forall ln c, In ln (scanned_lines self f) -> In c ln -> (c < 128)%N) ->
  digits_within_limit (scanned_lines self f) = true ->
  exists l, _guess_missing_values self f = Ok l.
Proof.
  intros H _. eexists.
  apply guess_missing_values_unfold, decimal_signs_accepts, ascii_decimal_signs, H.
Qed.

Lemma guess_missing_values_ascii_witness :
  exists l, _guess_missing_values (reader_with 3 (lit "1001")) zero_header_file = Ok l.
Proof.
  apply (guess_missing_values_ascii (reader_with 3 (lit "1001")) zero_header_file).
  - intros ln c Hln Hc. vm_compute in Hln.
    repeat (destruct Hln as [Hln|Hln];
            [subst ln; vm_compute in Hc;
             repeat (destruct Hc as [Hc|Hc]; [subst c; reflexivity|]);
             contradiction|]).
    contradiction.
  - vm_compute. reflexivity.
Defined.

(** X22. What follows the header does not matter to the header methods:
    two files whose first [header_length] lines are the same give the same
    header lines, metadata, variable definitions and missing-value guess. *)
Theorem header_methods_ignore_data (self : ICARTTReader) (f1 f2 : File) :
  firstn (Z.to_nat (ICARTTInfo.header_length (info self))) (file_lines f1) =
  firstn (Z.to_nat (ICARTTInfo.header_length (info self))) (file_lines f2) ->
  read_header_lines self f1 = read_header_lines self f2 /\
  read_metadata self f1 = read_metadata self f2 /\
  read_variable_defs self f1 = read_variable_defs self f2 /\
  _guess_missing_values self f1 = _guess_missing_values self f2.
Proof.
  intro H.
  assert (Hl : read_header_lines self f1 = read_header_lines self f2)
    by (rewrite !read_header_lines_spec; now rewrite H).
  repeat split.
  - exact Hl.
  - unfold read_metadata. now rewrite Hl.
  - unfold read_variable_defs. now rewrite Hl.
  - unfold _guess_missing_values. now rewrite Hl.
Qed.

Lemma header_methods_ignore_data_witness :
  read_header_lines (reader_with 2 (lit "1001")) zero_header_file
  = read_header_lines (reader_with 2 (lit "1001")) (zero_header_file ++ lit "1,-9999") /\
  read_metadata (reader_with 2 (lit "1001")) zero_header_file
  = read_metadata (reader_with 2 (lit "1001")) (zero_header_file ++ lit "1,-9999") /\
  read_variable_defs (reader_with 2 (lit "1001")) zero_header_file
  = read_variable_defs (reader_with 2 (lit "1001")) (zero_header_file ++ lit "1,-9999") /\
  _guess_missing_values (reader_with 2 (lit "1001")) zero_header_file
  = _guess_missing_values (reader_with 2 (lit "1001")) (zero_header_file ++ lit "1,-9999").
Proof.
  apply (header_methods_ignore_data (reader_with 2 (lit "1001")) zero_header_file
           (zero_header_file ++ lit "1,-9999")).
  vm_compute. reflexivity.
Defined.

Lemma metadata_positional_get (self : ICARTTReader) (f : File) (k : string) (i : nat) :
  In (k, i) metadata_positions ->
  dict_get k (read_metadata self f) = header_field (read_header_lines self f) i.
Proof.
  intro Hin. rewrite read_metadata_unfold.
  rewrite dict_get_filter by apply metadata_entries_nodup.
  set (lines := read_header_lines self f).
  cbn [metadata_positions In] in Hin.
  decompose [or] Hin; clear Hin; try contradiction;
    match goal with
    | H : (_, _) = (_, _) |- _ => inversion H; subst; clear H
    end;
    cbn -[safe nonempty header_field];
    match goal with
    | |- _ = header_field _ ?j => exact (safe_header_field lines j)
    end.
Qed.

(** X23. A positional key of the metadata is absent whenever the header
    length does not reach beyond its position; with a header length of 1
    or less the metadata has no positional key at all. *)
Theorem metadata_needs_header (self : ICARTTReader) (f : File) (k : string) (i : nat) :
  In (k, i) metadata_positions ->
  ICARTTInfo.header_length (info self) <= Z.of_nat i ->
  dict_get k (read_metadata self f) = None.
Proof.
  intros Hin Hn. rewrite (metadata_positional_get self f k i Hin).
  unfold header_field.
  assert (E : nth_error (read_header_lines self f) i = None).
  { apply nth_error_None. rewrite read_header_lines_spec.
    rewrite length_map, length_firstn. lia. }
  now rewrite E.
Qed.

Lemma metadata_needs_header_witness :
  dict_get "mission" (read_metadata (reader_with 4 (lit "1001"))
                        (layout_file "4,1001" "2" "-9999, -9999")) = None.
Proof.
  apply (metadata_needs_header (reader_with 4 (lit "1001"))
           (layout_file "4,1001" "2" "-9999, -9999") "mission"%string 4%nat).
  - vm_compute. tauto.
  - vm_compute. discriminate.
Defined.

(** ** The limit on digits *)

Lemma py_int_default_within (s : str) :
  within_digit_limit s = true -> py_int_default s = py_int s.
Proof. intro H. unfold py_int_default. now rewrite H. Qed.

Lemma py_int_default_beyond (s : str) :
  within_digit_limit s = false -> py_int_default s = None.
Proof. intro H. unfold py_int_default. now rewrite H. Qed.

(** 4300 digits are converted, 4301 are not, leading zeros counted;
    underscores and the sign do not count. *)
Example digit_limit_examples :
  within_digit_limit (MINUS :: repeat 49%N 4300) = true /\
  within_digit_limit (MINUS :: repeat 49%N 4301) = false /\
  within_digit_limit (repeat 48%N 4300 ++ [50%N]) = false /\
  within_digit_limit (concat (repeat [49%N; UNDERSCORE] 4299) ++ [49%N]) = true /\
  py_int_default (repeat 48%N 4300 ++ [50%N]) = None /\
  py_int (repeat 48%N 4300 ++ [50%N]) = Some 2.
Proof. vm_compute. repeat split. Qed.
